(** * exponential-slider: step <-> model conversion (src/index.ts)

    The library maps a slider position ("step", 0..steps) to a value of a
    bounded range ("model") and back: linear over a low sub-range, quadratic
    over the rest.  Every function of src/index.ts is pure and works on
    JavaScript numbers, which are binary64 floating-point numbers.

    The program is embedded over an interface [JSNumber] of the operations
    on numbers it uses and read at [float], the kernel's binary64 numbers
    with the specification of IEEE 754 arithmetic that comes with them:
    what the code computes, bit for bit.  The tests of the source are
    evaluated there, and every property is proved there, for all binary64
    inputs: NaN, the infinities and the two zeros included. *)

From Stdlib Require Import ZArith Bool List Lia.
From Stdlib Require Import Floats.
From Stdlib Require Uint63.

Set Implicit Arguments.
Set Warnings "-inexact-float".

(** ** The numbers of the source *)

(** The operations on [number] that src/index.ts uses.  [leb], [ltb] and
    [eqb] are [<=], [<] and [===]; [>=] and [>] are the same comparisons
    with their arguments exchanged.  [Math_pow2 x] is [Math.pow(x, 2)]. *)
Class JSNumber (num : Type) : Type := {
  of_Z : Z -> num;
  add : num -> num -> num;
  sub : num -> num -> num;
  mul : num -> num -> num;
  div : num -> num -> num;
  leb : num -> num -> bool;
  ltb : num -> num -> bool;
  eqb : num -> num -> bool;
  Math_min : num -> num -> num;
  Math_max : num -> num -> num;
  Math_round : num -> num;
  Math_sqrt : num -> num;
  Math_pow2 : num -> num
}.

Declare Scope js_scope.
Delimit Scope js_scope with js.
Notation "x + y" := (add x y) : js_scope.
Notation "x - y" := (sub x y) : js_scope.
Notation "x * y" := (mul x y) : js_scope.
Notation "x / y" := (div x y) : js_scope.
Notation "x <=? y" := (leb x y) (at level 70, no associativity) : js_scope.
Notation "x <? y" := (ltb x y) (at level 70, no associativity) : js_scope.
Notation "x >=? y" := (leb y x) (at level 70, no associativity) : js_scope.
Notation "x >? y" := (ltb y x) (at level 70, no associativity) : js_scope.
Notation "x === y" := (eqb x y) (at level 70, no associativity) : js_scope.
Notation "0" := (of_Z 0) : js_scope.
Notation "1" := (of_Z 1) : js_scope.
Notation "100" := (of_Z 100) : js_scope.

(** ** The types of the source *)

Module LinearConfig.
Record t (num : Type) : Type := mk {
  maxLinear : num;
  linearPercent : num
}.
End LinearConfig.

Module Bounds.
Record t (num : Type) : Type := mk {
  min : num;
  max : num
}.
End Bounds.

Module ResolvedConfig.
Record t (num : Type) : Type := mk {
  steps : num;
  linearAbsolute : num;
  linearPercent : num;
  min : num;
  max : num;
  range : num
}.
End ResolvedConfig.

Module SliderCalculator.
Record t (num : Type) : Type := mk {
  stepToModel : num -> num;
  modelToStep : num -> num;
  config : ResolvedConfig.t num
}.
End SliderCalculator.

(** ** The functions of the source *)

Section Slider.
Context {num : Type} {JS : JSNumber num}.
Local Open Scope js_scope.

(** [limitBounds], lines 151-156. *)
Definition limitBounds (value : num) (bounds : Bounds.t num) : num :=
  Math_min (Math_max value (Bounds.min bounds)) (Bounds.max bounds).

(** [expRange], lines 158-162. *)
Definition expRange (value min max : num) : num :=
  let range := max - min in
  Math_pow2 (value / range) * range + min.

(** [rootRange], lines 164-168. *)
Definition rootRange (value min max : num) : num :=
  let range := max - min in
  Math_sqrt (Math_max 0 (value - min) / range) * range.

(** What [linear ||= {...}] leaves in [linear], lines 130-133: an object is
    never falsy, so the default is taken exactly when the argument is
    absent. *)
Definition defaultLinear (linear : option (LinearConfig.t num))
  : LinearConfig.t num :=
  match linear with
  | Some l => l
  | None => LinearConfig.mk 0 0
  end.

(** [resolveConfig], lines 125-149. *)
Definition resolveConfig (steps : num) (bounds : Bounds.t num)
    (linear : option (LinearConfig.t num)) : ResolvedConfig.t num :=
  let linear := defaultLinear linear in
  let linearPercent := LinearConfig.linearPercent linear / 100 in
  let linearAbsolute :=
    Math_min (LinearConfig.maxLinear linear)
             (Math_round (Bounds.max bounds * linearPercent)) in
  let max :=
    if LinearConfig.linearPercent linear === 100
    then LinearConfig.maxLinear linear
    else Bounds.max bounds in
  ResolvedConfig.mk steps linearAbsolute linearPercent
                    (Bounds.min bounds) max (max - Bounds.min bounds).

(** The linear branch of [stepToModelInternal], lines 62-64: what is
    returned when [percent <= linearPercent]. *)
Definition linearBranch (percent : num) (config : ResolvedConfig.t num)
  : num :=
  let linearPercent := ResolvedConfig.linearPercent config in
  let linearAbsolute := ResolvedConfig.linearAbsolute config in
  let min := ResolvedConfig.min config in
  let percentOfAbsolute :=
    if linearPercent >? 0 then percent / linearPercent else 0 in
  percentOfAbsolute * linearAbsolute + min.

(** The exponential branch of [stepToModelInternal], lines 67-80: what is
    returned when [percent > linearPercent]. *)
Definition exponentialBranch (step percent : num)
    (config : ResolvedConfig.t num) : num :=
  let linearPercent := ResolvedConfig.linearPercent config in
  let linearAbsolute := ResolvedConfig.linearAbsolute config in
  let steps := ResolvedConfig.steps config in
  let range := ResolvedConfig.range config in
  let min := ResolvedConfig.min config in
  let linear :=
    if linearPercent >? 0
    then Math_min percent linearPercent / linearPercent * linearAbsolute
    else 0 in
  let rangeExponential := range - linearAbsolute in
  let remainder := step - steps * linearPercent in
  let expPercent := 1 - linearPercent in
  let percentOfMax := remainder / (steps * expPercent) in
  let expVal := percentOfMax * rangeExponential in
  linear + expRange expVal 0 rangeExponential + min.

(** [stepToModelInternal], lines 48-81. *)
Definition stepToModelInternal (step : num) (config : ResolvedConfig.t num)
  : num :=
  let linearPercent := ResolvedConfig.linearPercent config in
  let linearAbsolute := ResolvedConfig.linearAbsolute config in
  let steps := ResolvedConfig.steps config in
  let range := ResolvedConfig.range config in
  let min := ResolvedConfig.min config in
  let max := ResolvedConfig.max config in
  let step := limitBounds step (Bounds.mk 0 steps) in
  let percent := step / steps in
  if linearAbsolute >=? max then percent * range + min
  else if percent <=? linearPercent then linearBranch percent config
  else exponentialBranch step percent config.

(** [stepToModel], lines 39-46. *)
Definition stepToModel (step steps : num) (bounds : Bounds.t num)
    (linear : option (LinearConfig.t num)) : num :=
  stepToModelInternal step (resolveConfig steps bounds linear).

(** [modelToStepInternal], lines 92-123. *)
Definition modelToStepInternal (model : num) (config : ResolvedConfig.t num)
  : num :=
  let linearPercent := ResolvedConfig.linearPercent config in
  let linearAbsolute := ResolvedConfig.linearAbsolute config in
  let steps := ResolvedConfig.steps config in
  let range := ResolvedConfig.range config in
  let min := ResolvedConfig.min config in
  let max := ResolvedConfig.max config in
  let model := limitBounds model (Bounds.mk min max) in
  let actualValue := Math_max (model - min) 0 in
  if linearAbsolute >=? max then
    let percent := actualValue / range in
    Math_round (percent * steps)
  else if (linearAbsolute >? 0) && (actualValue <=? linearAbsolute) then
    let percent := actualValue / linearAbsolute * linearPercent in
    Math_round (percent * steps)
  else
    let remainderValue := actualValue - linearAbsolute in
    let rangeExponential := range - linearAbsolute in
    let dynamicPercent := 1 - linearPercent in
    let percentOfMax :=
      rootRange remainderValue 0 rangeExponential / rangeExponential in
    Math_round (steps * linearPercent + percentOfMax * steps * dynamicPercent).

(** [modelToStep], lines 83-90. *)
Definition modelToStep (model steps : num) (bounds : Bounds.t num)
    (linear : option (LinearConfig.t num)) : num :=
  modelToStepInternal model (resolveConfig steps bounds linear).

(** [useExponentialSlider], lines 26-37. *)
Definition useExponentialSlider (steps : num) (bounds : Bounds.t num)
    (linear : option (LinearConfig.t num)) : SliderCalculator.t num :=
  let config := resolveConfig steps bounds linear in
  SliderCalculator.mk
    (fun step => stepToModelInternal step config)
    (fun model => modelToStepInternal model config)
    config.
End Slider.

(** ** binary64: the numbers the code runs on *)

Module F64.
Local Open Scope float_scope.

(** An integer literal of the source.  Exact below 2^53. *)
Definition of_Z (z : Z) : float :=
  match z with
  | Z0 => zero
  | Zpos _ => of_uint63 (Uint63.of_Z z)
  | Zneg p => - of_uint63 (Uint63.of_Z (Zpos p))
  end.

(** [Math.min]: NaN as soon as an argument is NaN, and -0 below +0. *)
Definition Math_min (a b : float) : float :=
  if is_nan a || is_nan b then nan
  else if a <? b then a
  else if b <? a then b
  else if get_sign a then a else b.

(** [Math.max]: NaN as soon as an argument is NaN, and +0 above -0. *)
Definition Math_max (a b : float) : float :=
  if is_nan a || is_nan b then nan
  else if a <? b then b
  else if b <? a then a
  else if get_sign a then b else a.

(** 2^52: from there on every binary64 number is an integer. *)
Definition two52 : float := 4503599627370496.

(** The largest integer not above [x], for [abs x < 2^52]: adding and
    subtracting 2^52 rounds [x] to an integer, which is then corrected
    downwards.  Each of the operations is exact. *)
Definition floor (x : float) : float :=
  let r := if 0 <=? x then (x + two52) - two52 else (x - two52) + two52 in
  if x <? r then r - 1 else r.

(** [Math.round]: the nearest integer, a tie going to the larger one.  NaN,
    the infinities, the zeros and the numbers from 2^52 on are returned
    unchanged, and a result of zero keeps the sign of [x]. *)
Definition Math_round (x : float) : float :=
  if is_nan x || is_infinity x || is_zero x || (two52 <=? PrimFloat.abs x)
  then x
  else
    let f := floor x in
    let r := if 0.5 <=? x - f then f + 1 else f in
    if is_zero r && (x <? 0) then neg_zero else r.

(** [Math.pow(x, 2)]: the engines return the product [x * x] for the
    exponent 2. *)
Definition Math_pow2 (x : float) : float := x * x.

#[global] Instance number : JSNumber float := {
  of_Z := of_Z;
  add := PrimFloat.add;
  sub := PrimFloat.sub;
  mul := PrimFloat.mul;
  div := PrimFloat.div;
  leb := PrimFloat.leb;
  ltb := PrimFloat.ltb;
  eqb := PrimFloat.eqb;
  Math_min := Math_min;
  Math_max := Math_max;
  Math_round := Math_round;
  Math_sqrt := PrimFloat.sqrt;
  Math_pow2 := Math_pow2
}.

(** The order of binary64, as its specification [SFcompare] gives it:
    [None] as soon as an argument is NaN. *)
Definition cmp (x y : float) : option comparison :=
  SFcompare (Prim2SF x) (Prim2SF y).

(** Whether [x ? z] may be [xz] when [x ? y] is [xy] and [y ? z] is [yz]. *)
Definition chained (xy yz xz : comparison) : bool :=
  match xy, yz with
  | Lt, Lt | Lt, Eq | Eq, Lt => match xz with Lt => true | _ => false end
  | Gt, Gt | Gt, Eq | Eq, Gt => match xz with Gt => true | _ => false end
  | Eq, Eq => match xz with Eq => true | _ => false end
  | _, _ => true
  end.

(** A zero of either sign, or NaN: all that a product with a zero, and a
    difference of two such products, can be. *)
Definition vanishing (x : float) : bool := is_zero x || is_nan x.
End F64.

(** ** The tests of the source, lines 170-672 *)

Module Tests.
Local Open Scope float_scope.

(** [x.toFixed(0)] as a number, for [x >= 0]: the nearest integer, a tie
    going to the larger one. *)
Definition toFixed0 (x : float) : float := F64.Math_round x.

(** [expect(a).toBe(b)] on numbers is [Object.is(a, b)]. *)
Definition toBe (a b : float) : bool := Leibniz.eqb a b.

(** The loop of [testBackAndForth], lines 271-282:
    [for (let step = 0; step <= steps; step++)], every pass expecting
    [step] to be [modelToStep(stepToModel(step, ...), ...)]. *)
Fixpoint backAndForthFrom (passes : nat) (step steps : float)
    (bounds : Bounds.t float) (linearConfig : option (LinearConfig.t float))
  : bool :=
  match passes with
  | O => negb (step <=? steps)
  | S passes' =>
      if step <=? steps then
        let model := stepToModel step steps bounds linearConfig in
        let stepForModel := modelToStep model steps bounds linearConfig in
        toBe step stepForModel
        && backAndForthFrom passes' (step + 1) steps bounds linearConfig
      else true
  end.

(** The loop run to its end: [steps + 1] passes are enough for the integer
    step counts of the tests. *)
Definition testBackAndForth (passes : Z) (steps : float)
    (bounds : Bounds.t float) (linearConfig : option (LinearConfig.t float))
  : bool :=
  backAndForthFrom (Z.to_nat passes) 0 steps bounds linearConfig.

(** The same loop over the closures of [useExponentialSlider], lines
    283-294. *)
Fixpoint sliderBackAndForthFrom (passes : nat) (step steps : float)
    (slider : SliderCalculator.t float) : bool :=
  match passes with
  | O => negb (step <=? steps)
  | S passes' =>
      if step <=? steps then
        let model := SliderCalculator.stepToModel slider step in
        let stepForModel := SliderCalculator.modelToStep slider model in
        toBe step stepForModel
        && sliderBackAndForthFrom passes' (step + 1) steps slider
      else true
  end.

(** The shared fixture of lines 338-347. *)
Definition steps : float := 1000.
Definition linearConfig : option (LinearConfig.t float) :=
  Some (LinearConfig.mk 15000 75).
Definition bounds : Bounds.t float := Bounds.mk 500 1250000.

(** The four configurations given to [testBackAndForth], lines 297-336,
    each with 10000 steps. *)
Definition configurations
  : list (Bounds.t float * option (LinearConfig.t float)) :=
  (Bounds.mk 500 125000, Some (LinearConfig.mk 15000 75))
  :: (Bounds.mk 500 100000, Some (LinearConfig.mk 100000 75))
  :: (Bounds.mk 500 1500000, Some (LinearConfig.mk 1000000 100))
  :: (Bounds.mk 500 1500000, None) :: nil.

(** [check] on every step of the same loop. *)
Fixpoint everyStepFrom (passes : nat) (step steps : float)
    (check : float -> bool) : bool :=
  match passes with
  | O => negb (step <=? steps)
  | S passes' =>
      if step <=? steps
      then check step && everyStepFrom passes' (step + 1) steps check
      else true
  end.

(** A range whose lower bound is close to its upper bound: the linear
    region, 500 wide, does not fit between 900 and 1000. *)
Definition narrowBounds : Bounds.t float := Bounds.mk 900 1000.
Definition halfLinear : option (LinearConfig.t float) :=
  Some (LinearConfig.mk 500 50).

(** A range that the linear region fills up to its last value: no width is
    left for the exponential region. *)
Definition filledBounds : Bounds.t float := Bounds.mk 500 1000.
End Tests.

Unset Implicit Arguments.
Open Scope float_scope.

(** * The tests of the source, run in binary64 *)

Section SourceTests.
Import Tests.
Local Open Scope float_scope.

(** ['Resolve Config'], lines 173-262. *)
Example test_resolve_happy_path :
  resolveConfig 1000 (Bounds.mk 500 1500000) (Some (LinearConfig.mk 15000 75))
  = ResolvedConfig.mk 1000 15000 0.75 500 1500000 1499500.
Proof. vm_compute. reflexivity. Qed.

Example test_resolve_percent_99 :
  resolveConfig 1000 (Bounds.mk 500 1500000) (Some (LinearConfig.mk 15000 99))
  = ResolvedConfig.mk 1000 15000 0.99 500 1500000 1499500.
Proof. vm_compute. reflexivity. Qed.

Example test_resolve_percent_100 :
  resolveConfig 1000 (Bounds.mk 500 1500000) (Some (LinearConfig.mk 15000 100))
  = ResolvedConfig.mk 1000 15000 1 500 15000 14500.
Proof. vm_compute. reflexivity. Qed.

Example test_resolve_very_low_max :
  resolveConfig 1000 (Bounds.mk 500 12000) (Some (LinearConfig.mk 15000 90))
  = ResolvedConfig.mk 1000 10800 0.9 500 12000 11500.
Proof. vm_compute. reflexivity. Qed.

Example test_resolve_no_linear_config :
  resolveConfig 1000 (Bounds.mk 500 12000) None
  = ResolvedConfig.mk 1000 0 0 500 12000 11500.
Proof. vm_compute. reflexivity. Qed.

(** [testBackAndForth], lines 297-336: the four configurations, every step
    from 0 to 10000, through the functions and through the closures. *)
Example test_back_and_forth_regular :
  testBackAndForth 10001 10000 (Bounds.mk 500 125000)
                   (Some (LinearConfig.mk 15000 75)) = true.
Proof. vm_compute. reflexivity. Qed.

Example test_back_and_forth_max_linear_equal_to_max :
  testBackAndForth 10001 10000 (Bounds.mk 500 100000)
                   (Some (LinearConfig.mk 100000 75)) = true.
Proof. vm_compute. reflexivity. Qed.

Example test_back_and_forth_all_linear :
  testBackAndForth 10001 10000 (Bounds.mk 500 1500000)
                   (Some (LinearConfig.mk 1000000 100)) = true.
Proof. vm_compute. reflexivity. Qed.

Example test_back_and_forth_no_linear_config :
  testBackAndForth 10001 10000 (Bounds.mk 500 1500000) None = true.
Proof. vm_compute. reflexivity. Qed.

Example test_back_and_forth_sliders :
  forallb
    (fun c =>
       sliderBackAndForthFrom (Z.to_nat 10001) 0 10000
         (useExponentialSlider 10000 (fst c) (snd c)))
    configurations = true.
Proof. vm_compute. reflexivity. Qed.

(** ['Model to Step'], lines 349-464. *)
Example test_model_to_step :
  map toFixed0
    (modelToStep 500 steps bounds linearConfig
     :: modelToStep 1250000 steps bounds linearConfig
     :: modelToStep 6500 steps bounds linearConfig
     :: modelToStep 1250000 1000 (Bounds.mk 500 1250000)
          (Some (LinearConfig.mk 1500000 75))
     :: modelToStep 1000000 1000 (Bounds.mk 500 1250000)
          (Some (LinearConfig.mk 1000000 100))
     :: modelToStep 750500 1000 (Bounds.mk 500 1000000)
          (Some (LinearConfig.mk 1000000 75))
     :: modelToStep 799685 1000 (Bounds.mk 500 1000000)
          (Some (LinearConfig.mk 1000000 75))
     :: modelToStep 900000 1000 (Bounds.mk 500 1000000)
          (Some (LinearConfig.mk 1000000 75))
     :: modelToStep 1000000 1000 (Bounds.mk 500 1000000)
          (Some (LinearConfig.mk 1000000 75))
     :: nil)
  = 0 :: 1000 :: 300 :: 1000 :: 1000 :: 750 :: 861 :: 944 :: 1000 :: nil.
Proof. vm_compute. reflexivity. Qed.

(** ['Step to Model'], lines 466-612. *)
Example test_step_to_model :
  map toFixed0
    (stepToModel 0 steps bounds linearConfig
     :: stepToModel 500 steps bounds linearConfig
     :: stepToModel 600 steps bounds linearConfig
     :: stepToModel 750 steps bounds linearConfig
     :: stepToModel 998 steps bounds linearConfig
     :: stepToModel 999 steps bounds linearConfig
     :: stepToModel 1000 steps bounds linearConfig
     :: stepToModel 6500 steps bounds linearConfig
     :: stepToModel 999 1000 (Bounds.mk 500 1250000)
          (Some (LinearConfig.mk 1500000 75))
     :: stepToModel 999 1000 (Bounds.mk 500 1250000)
          (Some (LinearConfig.mk 1000000 100))
     :: stepToModel 1000 1000 (Bounds.mk 500 1250000)
          (Some (LinearConfig.mk 1000000 100))
     :: stepToModel 0 1000 (Bounds.mk 500 1250000)
          (Some (LinearConfig.mk 1000000 100))
     :: stepToModel 749 steps bounds linearConfig
     :: stepToModel 750 1000 (Bounds.mk 500 1000000)
          (Some (LinearConfig.mk 1000000 75))
     :: stepToModel 861 1000 (Bounds.mk 500 1000000)
          (Some (LinearConfig.mk 1000000 75))
     :: stepToModel 944 1000 (Bounds.mk 500 1000000)
          (Some (LinearConfig.mk 1000000 75))
     :: stepToModel 1000 1000 (Bounds.mk 500 1000000)
          (Some (LinearConfig.mk 1000000 75))
     :: nil)
  = 500 :: 10500 :: 12500 :: 15500 :: 1230327 :: 1240144 :: 1250000
    :: 1250000 :: 1247509 :: 999001 :: 1000000 :: 500 :: 15480 :: 750500
    :: 799685 :: 900743 :: 1000000 :: nil.
Proof. vm_compute. reflexivity. Qed.

(** ['Happy Path'], ['Model lower than Min'] and ['Model higher than Max'],
    lines 614-645. *)
Example test_model_there_and_back :
  map (fun initialModel =>
         let step := modelToStep initialModel steps bounds linearConfig in
         let modelAfter := stepToModel step steps bounds linearConfig in
         (toFixed0 step, toFixed0 modelAfter))
      (6500 :: 300 :: 1500000 :: nil)
  = (300, 6500) :: (0, 500) :: (1000, 1250000) :: nil.
Proof. vm_compute. reflexivity. Qed.

(** ['No Linear Config'] and ['No Linear Config 2'], lines 647-671. *)
Example test_no_linear_config :
  map (fun step =>
         let model := stepToModel step 10000 (Bounds.mk 500 1500000) None in
         toBe step (modelToStep model 10000 (Bounds.mk 500 1500000) None))
      (0 :: 15 :: nil)
  = true :: true :: nil.
Proof. vm_compute. reflexivity. Qed.

(** On the four configurations of the tests every step is mapped into
    [[min, max]], a later step to a model that is not smaller, a larger
    model of a grid of 10000 to a step that is not smaller, and the ends
    of the range to each other. *)
Example binary64_in_range :
  forallb
    (fun c =>
       let cfg := resolveConfig 10000 (fst c) (snd c) in
       everyStepFrom (Z.to_nat 10001) 0 10000
         (fun step =>
            let model := stepToModelInternal step cfg in
            (ResolvedConfig.min cfg <=? model)
            && (model <=? ResolvedConfig.max cfg)))
    configurations = true.
Proof. vm_compute. reflexivity. Qed.

Example binary64_monotone :
  forallb
    (fun c =>
       let cfg := resolveConfig 10000 (fst c) (snd c) in
       let width := ResolvedConfig.range cfg / 10000 in
       everyStepFrom (Z.to_nat 10000) 0 9999
         (fun step =>
            (stepToModelInternal step cfg
             <=? stepToModelInternal (step + 1) cfg)
            && (modelToStepInternal (ResolvedConfig.min cfg + step * width)
                                    cfg
                <=? modelToStepInternal
                      (ResolvedConfig.min cfg + (step + 1) * width) cfg)))
    configurations = true.
Proof. vm_compute. reflexivity. Qed.

Example binary64_boundaries :
  map (fun c =>
         let cfg := resolveConfig 10000 (fst c) (snd c) in
         (toBe (stepToModelInternal 0 cfg) (ResolvedConfig.min cfg)
          && toBe (stepToModelInternal 10000 cfg) (ResolvedConfig.max cfg),
          modelToStepInternal 0 cfg, modelToStepInternal 2000000 cfg))
      configurations
  = (true, 0, 10000) :: (true, 0, 10000) :: (true, 0, 10000)
    :: (true, 0, 10000) :: nil.
Proof. vm_compute. reflexivity. Qed.

(** Rounding is part of what the code computes: with a step count of
    10^10, far beyond the tests, step 1 does not come back. *)
Example binary64_round_trip_resolution :
  modelToStep (stepToModel 1 10000000000 (Bounds.mk 500 1500000) None)
              10000000000 (Bounds.mk 500 1500000) None = 0.
Proof. vm_compute. reflexivity. Qed.

(** Next to the fixtures the linear region may not fit any more:
    ['Very low max'] with 99 percent instead of 90 has
    [linearAbsolute = 11880] above [range = 11500]; step 990 is mapped to
    12380, above [max], and back to step 958. *)
Example test_very_low_max_99_percent :
  testBackAndForth 1001 1000 (Bounds.mk 500 12000)
                   (Some (LinearConfig.mk 15000 90)) = true
  /\ testBackAndForth 1001 1000 (Bounds.mk 500 12000)
                      (Some (LinearConfig.mk 15000 99)) = false
  /\ stepToModel 990 1000 (Bounds.mk 500 12000)
                 (Some (LinearConfig.mk 15000 99)) = 12380
  /\ modelToStep 12380 1000 (Bounds.mk 500 12000)
                 (Some (LinearConfig.mk 15000 99)) = 958.
Proof. vm_compute. repeat split; reflexivity. Qed.
End SourceTests.

(** * binary64: the order of the numbers *)

Section Binary64Order.
Local Open Scope float_scope.

Lemma SFcompare_chained (a b c : spec_float) (xy yz xz : comparison) :
  SFcompare a b = Some xy -> SFcompare b c = Some yz ->
  SFcompare a c = Some xz -> F64.chained xy yz xz = true.
Proof.
  destruct a as [[]|[]| |[] ma ea], b as [[]|[]| |[] mb eb],
           c as [[]|[]| |[] mc ec];
    cbn; intros Hab Hbc Hac; try discriminate.
  all: change (Pos.compare_cont Eq) with Pos.compare in *.
  all: repeat match goal with
         | H : context [Z.compare ?x ?y] |- _ =>
             destruct (Z.compare_spec x y)
         | H : context [Pos.compare ?x ?y] |- _ =>
             destruct (Pos.compare_spec x y)
         end.
  all: cbn in *; inversion Hab; inversion Hbc; inversion Hac; subst;
    try reflexivity; lia.
Qed.

Lemma SFcompare_opp (a b : spec_float) :
  SFcompare b a = option_map CompOpp (SFcompare a b).
Proof.
  destruct a as [[]|[]| |[] ma ea], b as [[]|[]| |[] mb eb]; cbn;
    try reflexivity.
  all: change (Pos.compare_cont Eq) with Pos.compare.
  all: rewrite (Z.compare_antisym ea eb), (Pos.compare_antisym ma mb).
  all: destruct (ea ?= eb)%Z, (ma ?= mb)%positive; reflexivity.
Qed.

Lemma SFcompare_defined (a b : spec_float) :
  a <> S754_nan -> b <> S754_nan -> exists c, SFcompare a b = Some c.
Proof.
  destruct a as [[]|[]| |[] ma ea], b as [[]|[]| |[] mb eb]; cbn;
    intros Ha Hb; try congruence; eexists; reflexivity.
Qed.

Lemma SFcompare_refl (a : spec_float) :
  a <> S754_nan -> SFcompare a a = Some Eq.
Proof.
  destruct a as [[]|[]| |[] ma ea]; cbn; intros Ha; try congruence.
  all: change (Pos.compare_cont Eq) with Pos.compare.
  all: rewrite Z.compare_refl, Pos.compare_refl; reflexivity.
Qed.

Lemma ltb_cmp (x y : float) :
  (x <? y) = match F64.cmp x y with Some Lt => true | _ => false end.
Proof. rewrite ltb_spec. reflexivity. Qed.

Lemma leb_cmp (x y : float) :
  (x <=? y) = match F64.cmp x y with Some (Lt | Eq) => true | _ => false end.
Proof. rewrite leb_spec. reflexivity. Qed.

Lemma eqb_cmp (x y : float) :
  (x =? y) = match F64.cmp x y with Some Eq => true | _ => false end.
Proof. rewrite eqb_spec. reflexivity. Qed.

Lemma is_nan_cmp (x : float) : is_nan x = false <-> F64.cmp x x = Some Eq.
Proof.
  unfold is_nan. rewrite eqb_cmp.
  destruct (F64.cmp x x) as [[]|]; cbn; split; congruence.
Qed.

Lemma cmp_opp (x y : float) :
  F64.cmp y x = option_map CompOpp (F64.cmp x y).
Proof. apply SFcompare_opp. Qed.

Lemma cmp_number (x y : float) (c : comparison) :
  F64.cmp x y = Some c -> is_nan x = false /\ is_nan y = false.
Proof.
  unfold F64.cmp. intros H.
  split; apply is_nan_cmp; unfold F64.cmp; apply SFcompare_refl;
    intros E; rewrite E in H; [| destruct (Prim2SF x) as [[]|[]| |[]]];
    discriminate.
Qed.

Lemma cmp_defined (x y : float) :
  is_nan x = false -> is_nan y = false -> exists c, F64.cmp x y = Some c.
Proof.
  intros Hx Hy. apply is_nan_cmp in Hx, Hy. unfold F64.cmp in *.
  apply SFcompare_defined; intros E; rewrite E in *; discriminate.
Qed.

(** [limitBounds] by the order of its three arguments: the upper bound when
    the bounds are crossed or the value is above it, the lower bound when
    the value is below it, the value otherwise; the result is that very
    number, or an equal one (a zero of the other sign, where two of the
    three are zeros). *)
Lemma limitBounds_ordered (value lo hi : float) (vl lh vh : comparison) :
  F64.cmp value lo = Some vl -> F64.cmp lo hi = Some lh ->
  F64.cmp value hi = Some vh ->
  match lh with
  | Gt => limitBounds value (Bounds.mk lo hi) = hi
  | _ =>
      match vl, vh with
      | Lt, _ => (limitBounds value (Bounds.mk lo hi) =? lo) = true
      | _, Gt => limitBounds value (Bounds.mk lo hi) = hi
      | _, _ => (limitBounds value (Bounds.mk lo hi) =? value) = true
      end
  end.
Proof.
  intros Hvl Hlh Hvh.
  pose proof (SFcompare_chained _ _ _ _ _ _ Hvl Hlh Hvh) as Hch.
  destruct (cmp_number _ _ _ Hvl) as [Nv Nl].
  destruct (cmp_number _ _ _ Hlh) as [_ Nh].
  pose proof (cmp_opp value lo) as Hlv. rewrite Hvl in Hlv.
  pose proof (cmp_opp lo hi) as Hhl. rewrite Hlh in Hhl.
  pose proof (cmp_opp value hi) as Hhv. rewrite Hvh in Hhv.
  pose proof (proj1 (is_nan_cmp value) Nv) as Hvv.
  pose proof (proj1 (is_nan_cmp lo) Nl) as Hll.
  pose proof (proj1 (is_nan_cmp hi) Nh) as Hhh.
  unfold limitBounds.
  cbn -[get_sign is_nan F64.cmp F64.Math_min F64.Math_max].
  change (@Math_min float F64.number) with F64.Math_min.
  change (@Math_max float F64.number) with F64.Math_max.
  unfold F64.Math_max. rewrite Nv, Nl, !ltb_cmp, Hvl, Hlv.
  cbn -[get_sign is_nan F64.cmp F64.Math_min].
  destruct vl, lh, vh; cbn -[get_sign is_nan F64.cmp F64.Math_min] in *;
    try discriminate;
    try destruct (get_sign value); unfold F64.Math_min;
    rewrite ?Nv, ?Nl, ?Nh, ?ltb_cmp, ?Hvl, ?Hlv, ?Hlh, ?Hhl, ?Hvh, ?Hhv,
      ?Hll, ?Hhh, ?Hvv;
    cbn -[get_sign is_nan F64.cmp];
    try destruct (get_sign lo); try destruct (get_sign value);
    rewrite ?eqb_cmp, ?Hvl, ?Hlv, ?Hlh, ?Hhl, ?Hvh, ?Hhv, ?Hll, ?Hhh, ?Hvv;
    reflexivity.
Qed.
End Binary64Order.

(** * binary64: special values and exact operations *)

(** ** The special values *)

Lemma nan_spec (x : float) : Prim2SF x = S754_nan -> x = nan.
Proof. intros H. apply Prim2SF_inj. rewrite H. reflexivity. Qed.

Lemma zero_spec (x : float) :
  is_zero x = true <-> exists s, Prim2SF x = S754_zero s.
Proof.
  unfold is_zero. rewrite eqb_spec. unfold SFeqb.
  change (Prim2SF zero) with (S754_zero false).
  destruct (Prim2SF x) as [[]|[]| |[] m e]; cbn; split;
    try discriminate; try (intros [s H]; discriminate); eauto.
Qed.

Lemma is_nan_spec (x : float) : is_nan x = true <-> Prim2SF x = S754_nan.
Proof.
  unfold is_nan. rewrite eqb_spec. unfold SFeqb.
  destruct (Prim2SF x) as [[]|[]| |[] m e]; cbn; split;
    try discriminate; try reflexivity.
  all: change (Pos.compare_cont Eq) with Pos.compare;
    rewrite Z.compare_refl, Pos.compare_refl; discriminate.
Qed.

Lemma is_infinity_spec (x : float) :
  is_infinity x = true <-> exists s, Prim2SF x = S754_infinity s.
Proof.
  unfold is_infinity. rewrite eqb_spec, abs_spec.
  change (Prim2SF infinity) with (S754_infinity false).
  destruct (Prim2SF x) as [[]|[]| |[] m e]; cbn; split;
    try discriminate; try (intros [s H]; discriminate); eauto.
Qed.

Lemma is_finite_spec (x : float) :
  is_finite x = true ->
  match Prim2SF x with
  | S754_zero _ | S754_finite _ _ _ => True
  | _ => False
  end.
Proof.
  unfold is_finite. rewrite negb_true_iff, orb_false_iff. intros [Nn Ni].
  destruct (Prim2SF x) as [s|s| |s m e] eqn:E; try exact I.
  - assert (is_infinity x = true) by (apply is_infinity_spec; eauto).
    congruence.
  - assert (is_nan x = true) by now apply is_nan_spec. congruence.
Qed.

Lemma vanishing_spec (x : float) :
  F64.vanishing x = true <->
  match Prim2SF x with
  | S754_zero _ | S754_nan => True
  | _ => False
  end.
Proof.
  unfold F64.vanishing. rewrite orb_true_iff, zero_spec, is_nan_spec.
  destruct (Prim2SF x) as [s|s| |s m e]; split; intros H;
    try exact I; try contradiction; eauto;
    destruct H as [[s' H] | H]; discriminate.
Qed.

Lemma vanishing_zero (x : float) : is_zero x = true -> F64.vanishing x = true.
Proof. intros H. unfold F64.vanishing. now rewrite H. Qed.

Lemma mul_vanishing (x y : float) :
  F64.vanishing x = true -> F64.vanishing (x * y) = true.
Proof.
  rewrite !vanishing_spec, mul_spec.
  destruct (Prim2SF x) as [sx| | |]; intros H; try contradiction;
    destruct (Prim2SF y) as [sy|sy| |sy my ey]; exact I.
Qed.

Lemma sub_vanishing (x y : float) :
  F64.vanishing x = true -> F64.vanishing y = true ->
  F64.vanishing (x - y) = true.
Proof.
  rewrite !vanishing_spec, sub_spec.
  destruct (Prim2SF x) as [[]| | |]; intros Hx; try contradiction;
    destruct (Prim2SF y) as [[]| | |]; intros Hy; try contradiction;
    exact I.
Qed.

Lemma div_vanishing (x y : float) :
  F64.vanishing x = true -> F64.vanishing y = true -> x / y = nan.
Proof.
  rewrite !vanishing_spec. intros Hx Hy. apply nan_spec. rewrite div_spec.
  destruct (Prim2SF x) as [sx| | |]; try contradiction;
    destruct (Prim2SF y) as [sy| | |]; try contradiction; reflexivity.
Qed.

Lemma nan_mul_l (y : float) : nan * y = nan.
Proof. apply nan_spec. rewrite mul_spec. reflexivity. Qed.

Lemma nan_div_l (y : float) : nan / y = nan.
Proof. apply nan_spec. rewrite div_spec. reflexivity. Qed.

Lemma nan_sub_l (y : float) : nan - y = nan.
Proof. apply nan_spec. rewrite sub_spec. reflexivity. Qed.

Lemma nan_add_l (y : float) : nan + y = nan.
Proof. apply nan_spec. rewrite add_spec. reflexivity. Qed.

Lemma nan_add_r (x : float) : x + nan = nan.
Proof.
  apply nan_spec. rewrite add_spec. change (Prim2SF nan) with S754_nan.
  destruct (Prim2SF x) as [[]|[]| |[] m e]; reflexivity.
Qed.

Lemma nan_leb_l (y : float) : (nan <=? y) = false.
Proof. rewrite leb_spec. reflexivity. Qed.

(** +0 times a finite number is a zero. *)
Lemma zero_mul_finite (y : float) :
  is_finite y = true -> is_zero (zero * y) = true.
Proof.
  intros F. apply is_finite_spec in F. apply zero_spec. rewrite mul_spec.
  change (Prim2SF zero) with (S754_zero false).
  destruct (Prim2SF y) as [s|s| |s m e]; try contradiction; cbn; eauto.
Qed.

(** A finite number times +0 is a zero. *)
Lemma finite_mul_zero (x : float) :
  is_finite x = true -> is_zero (x * zero) = true.
Proof.
  intros F. apply is_finite_spec in F. apply zero_spec. rewrite mul_spec.
  change (Prim2SF zero) with (S754_zero false).
  destruct (Prim2SF x) as [s|s| |s m e]; try contradiction; cbn; eauto.
Qed.

(** A zero plus a number is that number (or, for two zeros, a zero). *)
Lemma zero_add (z y : float) :
  is_zero z = true -> is_nan y = false -> (z + y =? y) = true.
Proof.
  intros Z N. apply zero_spec in Z. destruct Z as [s Z].
  rewrite eqb_spec, add_spec, Z.
  apply is_nan_cmp in N. unfold F64.cmp in N. unfold SFeqb.
  destruct (Prim2SF y) as [sy|sy| |sy m e]; try discriminate.
  - destruct s, sy; reflexivity.
  - destruct sy; reflexivity.
  - unfold SF64add. cbn [SFadd]. now rewrite N.
Qed.

(** +0 divided by a positive number is +0. *)
Lemma zero_div_pos (y : float) : (zero <? y) = true -> zero / y = zero.
Proof.
  rewrite ltb_spec. intros H. apply Prim2SF_inj. rewrite div_spec.
  change (Prim2SF zero) with (S754_zero false) in *.
  destruct (Prim2SF y) as [[]|[]| |[] m e]; try discriminate; reflexivity.
Qed.

Lemma is_zero_number (z : float) : is_zero z = true -> is_nan z = false.
Proof.
  intros Z. apply zero_spec in Z. destruct Z as [s Z].
  apply is_nan_cmp. unfold F64.cmp. now rewrite Z.
Qed.

Lemma Math_round_zero (z : float) :
  is_zero z = true -> F64.Math_round z = z.
Proof. intros Z. unfold F64.Math_round. now rewrite Z, !orb_true_r. Qed.

Lemma Math_min_zero (z : float) :
  is_zero z = true -> F64.Math_min zero z = z.
Proof.
  intros Z. pose proof (is_zero_number z Z) as N.
  apply zero_spec in Z. destruct Z as [s Z].
  unfold F64.Math_min. rewrite N, !ltb_spec, Z. reflexivity.
Qed.

(** ** Signs and equality *)

(** The sign bit, as the specification of binary64 has it. *)
Lemma get_sign_spec (x : float) :
  get_sign x = match Prim2SF x with
               | S754_zero s | S754_infinity s | S754_finite s _ _ => s
               | S754_nan => false
               end.
Proof.
  unfold get_sign. destruct (is_zero x) eqn:Z.
  - apply zero_spec in Z. destruct Z as [s Z]. rewrite Z.
    rewrite ltb_spec, div_spec, Z. destruct s; reflexivity.
  - assert (Hz : forall s, Prim2SF x <> S754_zero s).
    { intros s E.
      assert (is_zero x = true) by (apply zero_spec; eauto). congruence. }
    rewrite ltb_spec. change (Prim2SF 0) with (S754_zero false).
    destruct (Prim2SF x) as [s|[]| |[] m e]; try reflexivity.
    exfalso. now apply (Hz s).
Qed.

(** Two numbers that compare equal and have the same sign bit are the same
    number. *)
Lemma cmp_eq_sign (x y : float) :
  F64.cmp x y = Some Eq -> get_sign x = get_sign y -> x = y.
Proof.
  rewrite !get_sign_spec. unfold F64.cmp. intros H S.
  apply Prim2SF_inj.
  destruct (Prim2SF x) as [sx|sx| |sx mx ex],
           (Prim2SF y) as [sy|sy| |sy my ey];
    cbn in H, S; subst; try discriminate; try reflexivity;
    try (destruct sy; discriminate).
  change (Pos.compare_cont Eq) with Pos.compare in H.
  destruct sy, (Z.compare_spec ex ey); try discriminate;
    destruct (Pos.compare_spec mx my); try discriminate; now subst.
Qed.

Lemma eqb_trans (x y z : float) :
  (x =? y) = true -> (y =? z) = true -> (x =? z) = true.
Proof.
  rewrite !eqb_cmp.
  destruct (F64.cmp x y) as [xy |] eqn:Hxy; [| discriminate].
  destruct (F64.cmp y z) as [yz |] eqn:Hyz; [| destruct xy; discriminate].
  destruct (cmp_number _ _ _ Hxy) as [Nx _].
  destruct (cmp_number _ _ _ Hyz) as [_ Nz].
  destruct (cmp_defined x z Nx Nz) as [xz Hxz]. rewrite Hxz.
  pose proof (SFcompare_chained _ _ _ _ _ _ Hxy Hyz Hxz) as Hch.
  destruct xy, yz, xz; cbn in *; congruence.
Qed.

Lemma eqb_cmp_l (r x y : float) (c : comparison) :
  (r =? x) = true -> F64.cmp x y = Some c -> F64.cmp r y = Some c.
Proof.
  rewrite eqb_cmp. destruct (F64.cmp r x) as [[]|] eqn:Hrx; try discriminate.
  intros _ Hxy.
  destruct (cmp_number _ _ _ Hrx) as [Nr _].
  destruct (cmp_number _ _ _ Hxy) as [_ Ny].
  destruct (cmp_defined r y Nr Ny) as [c' Hry]. rewrite Hry.
  pose proof (SFcompare_chained _ _ _ _ _ _ Hrx Hxy Hry) as Hch.
  destruct c, c'; cbn in Hch; congruence.
Qed.

Lemma eqb_cmp_r (r x y : float) (c : comparison) :
  (r =? x) = true -> F64.cmp y x = Some c -> F64.cmp y r = Some c.
Proof.
  intros Hr Hyx. pose proof (cmp_opp y x) as Hxy. rewrite Hyx in Hxy.
  rewrite (cmp_opp r y), (eqb_cmp_l _ _ _ _ Hr Hxy). cbn.
  now rewrite CompOpp_involutive.
Qed.

(** ** limitBounds, expRange and rootRange on special values *)

Lemma limitBounds_F64 (v lo hi : float) :
  limitBounds v (Bounds.mk lo hi) = F64.Math_min (F64.Math_max v lo) hi.
Proof. reflexivity. Qed.

Lemma limitBounds_nan (value lo hi : float) :
  is_nan value || is_nan lo || is_nan hi = true ->
  limitBounds value (Bounds.mk lo hi) = nan.
Proof.
  rewrite limitBounds_F64. unfold F64.Math_min, F64.Math_max.
  destruct (is_nan value), (is_nan lo), (is_nan hi); cbn; try discriminate;
    intros _; try reflexivity.
  now rewrite orb_true_r.
Qed.

(** The transforms see their argument through [limitBounds] only, lines 55
    and 98. *)
Lemma stepToModelInternal_clamped {num : Type} {JS : JSNumber num}
    (step step' : num) (config : ResolvedConfig.t num) :
  limitBounds step (Bounds.mk (of_Z 0) (ResolvedConfig.steps config))
  = limitBounds step' (Bounds.mk (of_Z 0) (ResolvedConfig.steps config)) ->
  stepToModelInternal step config = stepToModelInternal step' config.
Proof. intros H. unfold stepToModelInternal. rewrite H. reflexivity. Qed.

Lemma modelToStepInternal_clamped {num : Type} {JS : JSNumber num}
    (model model' : num) (config : ResolvedConfig.t num) :
  limitBounds model
    (Bounds.mk (ResolvedConfig.min config) (ResolvedConfig.max config))
  = limitBounds model'
      (Bounds.mk (ResolvedConfig.min config) (ResolvedConfig.max config)) ->
  modelToStepInternal model config = modelToStepInternal model' config.
Proof. intros H. unfold modelToStepInternal. rewrite H. reflexivity. Qed.

Lemma limitBounds_below (v lo hi : float) :
  (v <? lo) = true ->
  limitBounds v (Bounds.mk lo hi) = limitBounds lo (Bounds.mk lo hi).
Proof.
  rewrite ltb_cmp.
  destruct (F64.cmp v lo) as [[]|] eqn:Hvl; try discriminate.
  intros _. destruct (cmp_number _ _ _ Hvl) as [Nv Nl].
  pose proof (proj1 (is_nan_cmp lo) Nl) as Hll.
  rewrite !limitBounds_F64. f_equal. unfold F64.Math_max.
  rewrite Nv, Nl, !ltb_cmp, Hvl, Hll. cbn -[get_sign].
  now destruct (get_sign lo).
Qed.

Lemma limitBounds_above (v lo hi : float) :
  (hi <? v) = true ->
  limitBounds v (Bounds.mk lo hi) = limitBounds hi (Bounds.mk lo hi).
Proof.
  rewrite ltb_cmp.
  destruct (F64.cmp hi v) as [[]|] eqn:Hhv; try discriminate.
  intros _. destruct (cmp_number _ _ _ Hhv) as [Nh Nv].
  destruct (is_nan lo) eqn:Nl.
  { rewrite !limitBounds_nan; try reflexivity; rewrite Nl; cbn;
      now rewrite ?orb_true_r. }
  destruct (cmp_defined lo hi Nl Nh) as [lh Hlh].
  destruct (cmp_defined v lo Nv Nl) as [vl Hvl].
  pose proof (cmp_opp hi v) as Hvh. rewrite Hhv in Hvh. cbn in Hvh.
  pose proof (cmp_opp lo hi) as Hhl. rewrite Hlh in Hhl.
  pose proof (cmp_opp v lo) as Hlv. rewrite Hvl in Hlv.
  pose proof (SFcompare_chained _ _ _ _ _ _ Hvl Hlh Hvh) as Hch.
  pose proof (proj1 (is_nan_cmp hi) Nh) as Hhh.
  pose proof (proj1 (is_nan_cmp lo) Nl) as Hll.
  rewrite !limitBounds_F64. unfold F64.Math_max.
  rewrite Nv, Nl, Nh, !ltb_cmp, Hvl, Hlv, Hhl, Hlh.
  cbn -[get_sign is_nan F64.cmp F64.Math_min].
  destruct vl, lh; cbn -[get_sign is_nan F64.cmp F64.Math_min] in *;
    try discriminate;
    unfold F64.Math_min;
    repeat match goal with
      | |- context [get_sign ?x] => destruct (get_sign x) eqn:?
      end;
    rewrite ?Nv, ?Nl, ?Nh, ?ltb_cmp, ?Hvl, ?Hlv, ?Hlh, ?Hhl, ?Hvh, ?Hhv,
      ?Hll, ?Hhh;
    cbn -[get_sign is_nan F64.cmp];
    repeat match goal with
      | |- context [get_sign ?x] => destruct (get_sign x) eqn:?
      end;
    try reflexivity; try congruence;
    try (apply cmp_eq_sign; [assumption | congruence]);
    try (symmetry; apply cmp_eq_sign; [assumption | congruence]).
Qed.

Lemma expRange_nan (lo hi : float) : expRange nan lo hi = nan.
Proof.
  unfold expRange. cbn. unfold F64.Math_pow2.
  now rewrite nan_div_l, !nan_mul_l, nan_add_l.
Qed.

Lemma rootRange_nan (lo hi : float) : rootRange nan lo hi = nan.
Proof.
  unfold rootRange. cbn -[F64.Math_max].
  rewrite nan_sub_l.
  change (F64.Math_max (F64.of_Z 0) nan) with nan.
  rewrite nan_div_l. change (PrimFloat.sqrt nan) with nan. now rewrite nan_mul_l.
Qed.

Lemma limitBounds_vanishing (v hi : float) :
  is_zero hi = true ->
  F64.vanishing (limitBounds v (Bounds.mk zero hi)) = true.
Proof.
  intros Z. destruct (is_nan v) eqn:Nv.
  { rewrite limitBounds_nan; [reflexivity | now rewrite Nv]. }
  assert (Hhz : F64.cmp hi zero = Some Eq).
  { unfold is_zero in Z. rewrite eqb_cmp in Z.
    destruct (F64.cmp hi zero) as [[]|]; congruence. }
  pose proof (cmp_opp hi zero) as Hzh. rewrite Hhz in Hzh. cbn in Hzh.
  destruct (cmp_number _ _ _ Hhz) as [Nh Nz].
  destruct (cmp_defined v zero Nv Nz) as [vl Hvl].
  destruct (cmp_defined v hi Nv Nh) as [vh Hvh].
  pose proof (limitBounds_ordered _ _ _ _ _ _ Hvl Hzh Hvh) as H.
  pose proof (SFcompare_chained _ _ _ _ _ _ Hvl Hzh Hvh) as Hch.
  apply vanishing_zero. unfold is_zero.
  destruct vl, vh; cbn in *; try discriminate.
  - apply (eqb_trans _ _ _ H). now rewrite eqb_cmp, Hvl.
  - exact H.
  - rewrite H. now rewrite eqb_cmp, Hhz.
Qed.

Lemma limitBounds_zero (steps : float) :
  (zero <? steps) = true -> limitBounds zero (Bounds.mk zero steps) = zero.
Proof.
  intros H. rewrite limitBounds_F64.
  change (F64.Math_max zero zero) with zero.
  unfold F64.Math_min. rewrite H.
  rewrite ltb_cmp in H.
  destruct (F64.cmp zero steps) as [[]|] eqn:E; try discriminate.
  destruct (cmp_number _ _ _ E) as [_ N]. now rewrite N.
Qed.

(** ** Rounding, and operations that are exact *)

(** What a rounded result can be: a zero, a finite number or an infinity of
    the sign given, or NaN. *)
Lemma binary_round_aux_shape (s : bool) (m e : Z) (l : location) :
  match binary_round_aux prec emax s m e l with
  | S754_zero s' | S754_infinity s' | S754_finite s' _ _ => s' = s
  | S754_nan => True
  end.
Proof.
  unfold binary_round_aux.
  destruct (shr_fexp prec emax m e l) as [mrs' e'].
  destruct (shr_fexp prec emax _ e' loc_Exact) as [mrs'' e''].
  destruct (shr_m mrs'') as [| p | p]; try exact I; try reflexivity.
  destruct (e'' <=? emax - prec)%Z; reflexivity.
Qed.

Lemma valid_finite (x : float) (s : bool) (m : positive) (e : Z) :
  Prim2SF x = S754_finite s m e ->
  fexp prec emax (Zpos (digits2_pos m) + e) = e
  /\ (e <=? emax - prec)%Z = true.
Proof.
  intros H. pose proof (Prim2SF_valid x) as V. rewrite H in V.
  unfold valid_binary, bounded, canonical_mantissa in V.
  apply andb_true_iff in V. destruct V as [C B].
  split; [now apply Z.eqb_eq | exact B].
Qed.

Lemma sub_zero_r (x : float) : x - zero = x.
Proof.
  apply Prim2SF_inj. rewrite sub_spec.
  change (Prim2SF zero) with (S754_zero false).
  destruct (Prim2SF x) as [[]|[]| |[] m e]; reflexivity.
Qed.

Lemma sub_diag (x : float) : is_finite x = true -> x - x = zero.
Proof.
  intros F. apply is_finite_spec in F. apply Prim2SF_inj. rewrite sub_spec.
  change (Prim2SF zero) with (S754_zero false).
  destruct (Prim2SF x) as [[]|s| |s m e]; try contradiction; try reflexivity.
  unfold SF64sub, SFsub. rewrite Z.sub_diag. reflexivity.
Qed.

Lemma one_spec : Prim2SF one = S754_finite false 4503599627370496 (-52).
Proof. reflexivity. Qed.

Lemma div_diag (x : float) :
  is_finite x = true -> is_zero x = false -> x / x = one.
Proof.
  intros F Z. apply is_finite_spec in F. apply Prim2SF_inj.
  rewrite div_spec, one_spec.
  destruct (Prim2SF x) as [s|s| |s m e] eqn:E; try contradiction.
  { assert (is_zero x = true) by (apply zero_spec; eauto). congruence. }
  unfold SF64div, SFdiv, SFdiv_core_binary.
  rewrite !Z.sub_diag.
  change (Z.min (fexp prec emax 0) 0) with (-53)%Z.
  change (0 - -53)%Z with 53%Z. cbv iota.
  destruct (Z.div_eucl (Z.shiftl (Z.pos m) 53) (Z.pos m)) as [q r] eqn:D.
  assert (Hq : q = (Z.shiftl (Z.pos m) 53 / Z.pos m)%Z)
    by (unfold Z.div; now rewrite D).
  assert (Hr : r = (Z.shiftl (Z.pos m) 53 mod Z.pos m)%Z)
    by (unfold Z.modulo; now rewrite D).
  rewrite Z.shiftl_mul_pow2 in Hq, Hr by lia.
  rewrite (Z.mul_comm (Z.pos m)) in Hq, Hr.
  rewrite Z.div_mul in Hq by lia. rewrite Z.mod_mul in Hr by lia.
  subst q r.
  assert (L : new_location (Z.pos m) 0 = loc_Exact).
  { unfold new_location, new_location_even, new_location_odd.
    now destruct (Z.even (Z.pos m)). }
  rewrite L. now destruct s.
Qed.

Lemma round_mul_one (s : bool) (m : positive) (e : Z) :
  fexp prec emax (Zpos (digits2_pos m) + e) = e ->
  (e <=? emax - prec)%Z = true ->
  binary_round_aux prec emax s (Z.pos (m * 4503599627370496)) (e + -52)
                   loc_Exact
  = S754_finite s m e.
Proof.
  intros C B.
  change 4503599627370496%positive
    with (1~0~0~0~0~0~0~0~0~0~0~0~0~0~0~0~0~0~0~0~0~0~0~0~0~0~0~0~0~0~0~0~0~0~0~0~0~0~0~0~0~0~0~0~0~0~0~0~0~0~0~0~0)%positive.
  rewrite !Pos.mul_xO_r, Pos.mul_1_r.
  unfold binary_round_aux, shr_fexp at 1.
  cbn [Zdigits2 digits2_pos].
  replace (fexp prec emax _) with e.
  2:{ rewrite <- C at 1. f_equal. rewrite !Pos2Z.inj_succ. lia. }
  replace (e - (e + -52))%Z with 52%Z by lia.
  cbn [shr shr_record_of_loc iter_pos shr_1 orb shr_m loc_of_shr_record
       round_nearest_even].
  unfold shr_fexp. cbn [Zdigits2].
  replace (e + -52 + 52)%Z with e by lia.
  rewrite C, Z.sub_diag. cbn [shr shr_record_of_loc shr_m].
  now rewrite B.
Qed.

Lemma mul_one_r (x : float) : x * one = x.
Proof.
  apply Prim2SF_inj. rewrite mul_spec, one_spec.
  destruct (Prim2SF x) as [[]|[]| |s m e] eqn:E; try reflexivity.
  destruct (valid_finite x s m e E) as [C B].
  unfold SF64mul, SFmul. rewrite xorb_false_r.
  now apply round_mul_one.
Qed.

Lemma mul_one_l (x : float) : one * x = x.
Proof.
  apply Prim2SF_inj. rewrite mul_spec, one_spec.
  destruct (Prim2SF x) as [[]|[]| |s m e] eqn:E; try reflexivity.
  destruct (valid_finite x s m e E) as [C B].
  unfold SF64mul, SFmul. rewrite xorb_false_l, Pos.mul_comm, Z.add_comm.
  now apply round_mul_one.
Qed.

(** ** Steps inside the bounds *)

Lemma pos_finite_spec (x : float) :
  (zero <? x) = true -> is_finite x = true ->
  exists m e, Prim2SF x = S754_finite false m e.
Proof.
  rewrite ltb_spec. change (Prim2SF zero) with (S754_zero false).
  intros P F. apply is_finite_spec in F.
  destruct (Prim2SF x) as [s|s| |[] m e]; try contradiction;
    try discriminate; eauto.
Qed.

Lemma pos_mul_zero (x : float) :
  (zero <? x) = true -> is_finite x = true -> x * zero = zero.
Proof.
  intros P F. destruct (pos_finite_spec x P F) as (m & e & E).
  apply Prim2SF_inj. rewrite mul_spec, E. reflexivity.
Qed.

Lemma resolveConfig_absent_F64 (steps bmin bmax : float) :
  (zero <? bmax) = true -> is_finite bmax = true ->
  resolveConfig steps (Bounds.mk bmin bmax) None
  = ResolvedConfig.mk steps zero zero bmin bmax (bmax - bmin).
Proof.
  intros P F. pose proof (finite_mul_zero bmax F) as Z.
  unfold resolveConfig. cbn -[F64.Math_min F64.Math_round is_zero].
  change (F64.of_Z 0 / F64.of_Z 100) with zero.
  change (F64.of_Z 0 =? F64.of_Z 100) with false.
  change (F64.of_Z 0) with zero. cbn -[F64.Math_min F64.Math_round is_zero].
  change 0 with zero.
  rewrite (Math_round_zero _ Z), (Math_min_zero _ Z).
  now rewrite (pos_mul_zero bmax P F).
Qed.

Lemma pos_sign (x : float) : (zero <? x) = true -> get_sign x = false.
Proof.
  rewrite ltb_spec, get_sign_spec.
  change (Prim2SF zero) with (S754_zero false).
  destruct (Prim2SF x) as [s|[]| |[] m e]; try discriminate; reflexivity.
Qed.

(** A strictly positive step of [0, steps] is left as it is. *)
Lemma limitBounds_inside_pos (step steps : float) :
  (zero <? step) = true -> (step <=? steps) = true ->
  limitBounds step (Bounds.mk zero steps) = step.
Proof.
  intros P L. rewrite limitBounds_F64.
  pose proof (pos_sign step P) as Sg.
  rewrite ltb_cmp in P. rewrite leb_cmp in L.
  destruct (F64.cmp zero step) as [[]|] eqn:Hzs; try discriminate.
  destruct (F64.cmp step steps) as [c|] eqn:Hss; [| discriminate].
  destruct (cmp_number _ _ _ Hss) as [Ns NS].
  pose proof (cmp_opp zero step) as Hsz. rewrite Hzs in Hsz. cbn in Hsz.
  pose proof (cmp_opp step steps) as HSs. rewrite Hss in HSs.
  unfold F64.Math_max. change (is_nan zero) with false.
  rewrite Ns, !ltb_cmp, Hsz, Hzs.
  cbn -[get_sign is_nan F64.cmp F64.Math_min].
  unfold F64.Math_min. rewrite Ns, NS, !ltb_cmp, Hss, HSs, Sg.
  destruct c; cbn -[get_sign F64.cmp] in *; try discriminate; try reflexivity.
  symmetry. apply cmp_eq_sign; [assumption |].
  rewrite Sg. symmetry. apply pos_sign. rewrite ltb_cmp.
  destruct (cmp_defined zero steps eq_refl NS) as [c Hc].
  pose proof (SFcompare_chained _ _ _ _ _ _ Hzs Hss Hc) as Hch.
  rewrite Hc. now destruct c.
Qed.

(** A step that is a zero is limited to a zero. *)
Lemma limitBounds_inside_zero (step steps : float) :
  is_zero step = true -> (zero <? steps) = true ->
  is_zero (limitBounds step (Bounds.mk zero steps)) = true.
Proof.
  intros Z P. unfold is_zero in *. rewrite eqb_cmp in Z. rewrite ltb_cmp in P.
  destruct (F64.cmp step zero) as [[]|] eqn:Hvl; try discriminate.
  destruct (F64.cmp zero steps) as [[]|] eqn:Hlh; try discriminate.
  destruct (cmp_number _ _ _ Hvl) as [Nv _].
  destruct (cmp_number _ _ _ Hlh) as [_ Nh].
  destruct (cmp_defined step steps Nv Nh) as [vh Hvh].
  pose proof (limitBounds_ordered _ _ _ _ _ _ Hvl Hlh Hvh) as H.
  pose proof (SFcompare_chained _ _ _ _ _ _ Hvl Hlh Hvh) as Hch.
  destruct vh; cbn in *; try discriminate.
  apply (eqb_trans _ _ _ H). now rewrite eqb_cmp, Hvl.
Qed.

(** The quotient of two positive numbers is not negative: when it is not
    above zero, it is a zero. *)
Lemma div_pos_zero (x y : float) :
  (zero <? x) = true -> (zero <? y) = true -> (x / y <=? zero) = true ->
  is_zero (x / y) = true.
Proof.
  rewrite !ltb_spec, leb_spec. intros Px Py L. apply zero_spec.
  rewrite div_spec in *. change (Prim2SF zero) with (S754_zero false) in *.
  destruct (Prim2SF x) as [sx|[]| |[] mx ex]; try discriminate;
    destruct (Prim2SF y) as [sy|[]| |[] my ey]; try discriminate; eauto;
    try (cbn in L; discriminate); try (cbn; eauto; fail).
  unfold SF64div, SFdiv in *.
  destruct (SFdiv_core_binary prec emax (Z.pos mx) ex (Z.pos my) ey)
    as [[mz ez] lz].
  pose proof (binary_round_aux_shape (xorb false false) mz ez lz) as Sh.
  destruct (binary_round_aux prec emax (xorb false false) mz ez lz)
    as [s|s| |s m e]; try discriminate; eauto; subst s; discriminate.
Qed.

(** The square law, as the code computes it, at a percent that is a zero. *)
Lemma square_law_zero (p r : float) :
  is_zero p = true -> is_finite r = true -> is_zero r = false ->
  zero + (p * r / r * (p * r / r) * r + zero) = zero.
Proof.
  intros Zp Fr Zr. apply zero_spec in Zp. destruct Zp as [sp Ep].
  apply is_finite_spec in Fr.
  destruct (Prim2SF r) as [sr|sr| |sr mr er] eqn:Er; try contradiction.
  { assert (is_zero r = true) by (apply zero_spec; eauto). congruence. }
  assert (E1 : Prim2SF (p * r / r) = S754_zero (xorb (xorb sp sr) sr)).
  { rewrite div_spec, mul_spec, Ep, Er. reflexivity. }
  apply Prim2SF_inj.
  rewrite add_spec, add_spec, mul_spec, mul_spec, E1, Er.
  change (Prim2SF zero) with (S754_zero false).
  destruct sp, sr; reflexivity.
Qed.

Lemma leb_zero_cases (x : float) :
  (zero <=? x) = true -> is_zero x = true \/ (zero <? x) = true.
Proof.
  rewrite leb_cmp, ltb_cmp. unfold is_zero. rewrite eqb_cmp, (cmp_opp zero x).
  destruct (F64.cmp zero x) as [[]|]; cbn; intros H; try discriminate; auto.
Qed.

(** ** Sums that are numbers *)










Lemma zero_div_number (z d : float) :
  is_zero z = true -> is_nan d = false -> is_zero d = false ->
  is_zero (z / d) = true.
Proof.
  intros Z N Zd. apply zero_spec in Z. destruct Z as [sz Ez].
  apply zero_spec. rewrite div_spec, Ez.
  destruct (Prim2SF d) as [sd|sd| |sd md ed] eqn:Ed; cbn; eauto.
  - assert (is_zero d = true) by (apply zero_spec; eauto). congruence.
  - assert (is_nan d = true) by now apply is_nan_spec. congruence.
Qed.

Lemma zero_mul_finite_any (z y : float) :
  is_zero z = true -> is_finite y = true -> is_zero (z * y) = true.
Proof.
  intros Z F. apply zero_spec in Z. destruct Z as [sz Ez].
  apply is_finite_spec in F. apply zero_spec. rewrite mul_spec, Ez.
  destruct (Prim2SF y) as [s|s| |s m e]; try contradiction; cbn; eauto.
Qed.








(** ** Math.min and Math.max in the order *)

(** [Math.min] is the smaller of two numbers up to [===], and the one that
    is returned is one of the two. *)
Lemma Math_min_cases (a b : float) (c : comparison) :
  F64.cmp a b = Some c ->
  match c with
  | Gt => F64.Math_min a b = b
  | Lt => F64.Math_min a b = a
  | Eq => F64.Math_min a b = a \/ F64.Math_min a b = b
  end.
Proof.
  intros H. destruct (cmp_number _ _ _ H) as [Na Nb].
  pose proof (cmp_opp a b) as H'. rewrite H in H'.
  unfold F64.Math_min. rewrite Na, Nb, !ltb_cmp, H, H'.
  destruct c; cbn -[get_sign]; try reflexivity.
  destruct (get_sign a); auto.
Qed.

Lemma leb_nan_r (c x : float) : is_nan x = true -> (c <=? x) = false.
Proof.
  intros N. rewrite leb_cmp. destruct (F64.cmp c x) as [o|] eqn:H;
    [| reflexivity].
  destruct (cmp_number _ _ _ H). congruence.
Qed.

Lemma leb_nan_l (x c : float) : is_nan x = true -> (x <=? c) = false.
Proof.
  intros N. rewrite leb_cmp. destruct (F64.cmp x c) as [o|] eqn:H;
    [| reflexivity].
  destruct (cmp_number _ _ _ H). congruence.
Qed.

Lemma leb_Math_min (c a b : float) :
  (c <=? F64.Math_min a b) = (c <=? a) && (c <=? b).
Proof.
  destruct (is_nan a) eqn:Na.
  { unfold F64.Math_min. rewrite Na. cbn [orb].
    now rewrite (leb_nan_r c nan eq_refl), (leb_nan_r c a Na). }
  destruct (is_nan b) eqn:Nb.
  { unfold F64.Math_min. rewrite Na, Nb. cbn [orb].
    now rewrite (leb_nan_r c nan eq_refl), (leb_nan_r c b Nb),
      andb_false_r. }
  destruct (cmp_defined a b Na Nb) as [ab Hab].
  pose proof (Math_min_cases a b ab Hab) as M.
  destruct (is_nan c) eqn:Nc.
  { now rewrite !(leb_nan_l c _ Nc). }
  destruct (cmp_defined c a Nc Na) as [ca Hca].
  destruct (cmp_defined c b Nc Nb) as [cb Hcb].
  pose proof (SFcompare_chained _ _ _ _ _ _ Hca Hab Hcb) as Hch.
  destruct ab; [destruct M as [M | M] | |]; rewrite M, !leb_cmp, ?Hca, ?Hcb;
    destruct ca, cb; cbn in *; congruence.
Qed.

Lemma Math_min_leb (a b c : float) :
  is_nan a = false -> is_nan b = false ->
  (F64.Math_min a b <=? c) = (a <=? c) || (b <=? c).
Proof.
  intros Na Nb.
  destruct (cmp_defined a b Na Nb) as [ab Hab].
  pose proof (Math_min_cases a b ab Hab) as M.
  destruct (is_nan c) eqn:Nc.
  { now rewrite !(leb_nan_r _ c Nc). }
  destruct (cmp_defined a c Na Nc) as [ac Hac].
  destruct (cmp_defined b c Nb Nc) as [bc Hbc].
  pose proof (SFcompare_chained _ _ _ _ _ _ Hab Hbc Hac) as Hch.
  destruct ab; [destruct M as [M | M] | |]; rewrite M, !leb_cmp, ?Hac, ?Hbc;
    destruct ac, bc; cbn in *; congruence.
Qed.

Lemma leb_number (a b : float) :
  (a <=? b) = true -> is_nan a = false /\ is_nan b = false.
Proof.
  rewrite leb_cmp. destruct (F64.cmp a b) as [c|] eqn:H; [| discriminate].
  intros _. exact (cmp_number _ _ _ H).
Qed.

Lemma Math_min_choice (a b : float) :
  is_nan a = false -> is_nan b = false ->
  F64.Math_min a b = a \/ F64.Math_min a b = b.
Proof.
  intros Na Nb. unfold F64.Math_min. rewrite Na, Nb. cbn [orb].
  destruct (a <? b); auto. destruct (b <? a); auto.
  destruct (get_sign a); auto.
Qed.

Lemma Math_max_choice (a b : float) :
  is_nan a = false -> is_nan b = false ->
  F64.Math_max a b = a \/ F64.Math_max a b = b.
Proof.
  intros Na Nb. unfold F64.Math_max. rewrite Na, Nb. cbn [orb].
  destruct (a <? b); auto. destruct (b <? a); auto.
  destruct (get_sign a); auto.
Qed.

Lemma ltb_irrefl (x : float) : (x <? x) = false.
Proof.
  rewrite ltb_cmp. destruct (F64.cmp x x) as [c|] eqn:H; [| reflexivity].
  destruct (cmp_number _ _ _ H) as [N _]. apply is_nan_cmp in N.
  rewrite N in H. now inversion H.
Qed.

Lemma Math_min_diag (x : float) : F64.Math_min x x = x.
Proof.
  unfold F64.Math_min. rewrite ltb_irrefl, orb_diag.
  destruct (is_nan x) eqn:N; [| now destruct (get_sign x)].
  symmetry. apply nan_spec. now apply is_nan_spec.
Qed.

Lemma Math_max_diag (x : float) : F64.Math_max x x = x.
Proof.
  unfold F64.Math_max. rewrite ltb_irrefl, orb_diag.
  destruct (is_nan x) eqn:N; [| now destruct (get_sign x)].
  symmetry. apply nan_spec. now apply is_nan_spec.
Qed.

(** When the second of two numbers is their maximum, the first is their
    minimum. *)
Lemma Math_max_min_dual (a b : float) :
  is_nan a = false -> is_nan b = false ->
  F64.Math_max a b = b -> F64.Math_min b a = a.
Proof.
  intros Na Nb. destruct (cmp_defined a b Na Nb) as [c H].
  pose proof (cmp_opp a b) as H'. rewrite H in H'.
  unfold F64.Math_max, F64.Math_min.
  rewrite Na, Nb, !ltb_cmp, H, H'.
  destruct c; cbn -[get_sign]; try reflexivity.
  - destruct (get_sign a) eqn:Sa.
    + intros _. destruct (get_sign b) eqn:Sb; [| reflexivity].
      symmetry. apply cmp_eq_sign; [exact H | congruence].
    + intros E. rewrite <- E. now destruct (get_sign a).
  - intros E. rewrite E in H. apply is_nan_cmp in Nb. congruence.
Qed.

Lemma Math_max_cases (a b : float) (c : comparison) :
  F64.cmp a b = Some c ->
  match c with
  | Gt => F64.Math_max a b = a
  | Lt => F64.Math_max a b = b
  | Eq => F64.Math_max a b = a \/ F64.Math_max a b = b
  end.
Proof.
  intros H. destruct (cmp_number _ _ _ H) as [Na Nb].
  pose proof (cmp_opp a b) as H'. rewrite H in H'.
  unfold F64.Math_max. rewrite Na, Nb, !ltb_cmp, H, H'.
  destruct c; cbn -[get_sign]; try reflexivity.
  destruct (get_sign a); auto.
Qed.

Lemma Math_max_leb (a b c : float) :
  (F64.Math_max a b <=? c) = (a <=? c) && (b <=? c).
Proof.
  destruct (is_nan a) eqn:Na.
  { unfold F64.Math_max. rewrite Na. cbn [orb].
    now rewrite (leb_nan_l nan c eq_refl), (leb_nan_l a c Na). }
  destruct (is_nan b) eqn:Nb.
  { unfold F64.Math_max. rewrite Na, Nb. cbn [orb].
    now rewrite (leb_nan_l nan c eq_refl), (leb_nan_l b c Nb),
      andb_false_r. }
  destruct (cmp_defined a b Na Nb) as [ab Hab].
  pose proof (Math_max_cases a b ab Hab) as M.
  destruct (is_nan c) eqn:Nc.
  { now rewrite !(leb_nan_r _ c Nc). }
  destruct (cmp_defined a c Na Nc) as [ac Hac].
  destruct (cmp_defined b c Nb Nc) as [bc Hbc].
  pose proof (SFcompare_chained _ _ _ _ _ _ Hab Hbc Hac) as Hch.
  destruct ab; [destruct M as [M | M] | |]; rewrite M, !leb_cmp, ?Hac, ?Hbc;
    destruct ac, bc; cbn in *; congruence.
Qed.

Lemma leb_Math_max (c a b : float) :
  is_nan a = false -> is_nan b = false ->
  (c <=? F64.Math_max a b) = (c <=? a) || (c <=? b).
Proof.
  intros Na Nb.
  destruct (cmp_defined a b Na Nb) as [ab Hab].
  pose proof (Math_max_cases a b ab Hab) as M.
  destruct (is_nan c) eqn:Nc.
  { now rewrite !(leb_nan_l c _ Nc). }
  destruct (cmp_defined c a Nc Na) as [ca Hca].
  destruct (cmp_defined c b Nc Nb) as [cb Hcb].
  pose proof (SFcompare_chained _ _ _ _ _ _ Hca Hab Hcb) as Hch.
  destruct ab; [destruct M as [M | M] | |]; rewrite M, !leb_cmp, ?Hca, ?Hcb;
    destruct ca, cb; cbn in *; congruence.
Qed.

Lemma leb_refl_number (x : float) : is_nan x = false -> (x <=? x) = true.
Proof. intros N. apply is_nan_cmp in N. now rewrite leb_cmp, N. Qed.

Lemma Math_max_number (a b : float) :
  is_nan a = false -> is_nan b = false -> is_nan (F64.Math_max a b) = false.
Proof.
  intros Na Nb. destruct (Math_max_choice a b Na Nb) as [E | E];
    now rewrite E.
Qed.

(** ** The ends of the range *)

Lemma finite_number (x : float) : is_finite x = true -> is_nan x = false.
Proof.
  unfold is_finite. rewrite negb_true_iff, orb_false_iff. intros H. apply H.
Qed.

(** The upper bound is limited to itself. *)
Lemma limitBounds_top (lo hi : float) :
  is_nan lo = false -> is_nan hi = false ->
  limitBounds hi (Bounds.mk lo hi) = hi.
Proof.
  intros Nl Nh. rewrite limitBounds_F64.
  destruct (Math_max_choice hi lo Nh Nl) as [E | E]; rewrite E.
  - apply Math_min_diag.
  - now apply Math_max_min_dual.
Qed.

Lemma sub_number_args (x y : float) :
  is_nan (x - y) = false -> is_nan x = false /\ is_nan y = false.
Proof.
  intros N.
  destruct (is_nan x) eqn:Nx.
  { apply is_nan_spec in Nx. apply nan_spec in Nx. subst x.
    now rewrite nan_sub_l in N. }
  destruct (is_nan y) eqn:Ny; [| now split].
  apply is_nan_spec in Ny.
  assert (E : is_nan (x - y) = true).
  { apply is_nan_spec. rewrite sub_spec, Ny.
    destruct (Prim2SF x) as [[]|[]| |[] m e]; reflexivity. }
  congruence.
Qed.

Lemma Math_max_pos_zero (x : float) :
  (zero <? x) = true -> F64.Math_max x zero = x.
Proof.
  intros P. rewrite ltb_cmp in P.
  destruct (F64.cmp zero x) as [[]|] eqn:H; try discriminate.
  destruct (cmp_number _ _ _ H) as [_ N].
  pose proof (cmp_opp zero x) as H'. rewrite H in H'. cbn in H'.
  unfold F64.Math_max. change (is_nan zero) with false.
  now rewrite N, !ltb_cmp, H, H'.
Qed.

Lemma pos_not_zero (x : float) : (zero <? x) = true -> is_zero x = false.
Proof.
  intros P. unfold is_zero. rewrite eqb_cmp, (cmp_opp zero x).
  rewrite ltb_cmp in P.
  destruct (F64.cmp zero x) as [[]|]; try discriminate; reflexivity.
Qed.

Lemma leb_refl_pos (x : float) : (zero <? x) = true -> (x <=? x) = true.
Proof.
  intros P. rewrite ltb_cmp in P.
  destruct (F64.cmp zero x) as [c|] eqn:H; [| discriminate].
  destruct (cmp_number _ _ _ H) as [_ N]. now apply leb_refl_number.
Qed.

Lemma add_zero_r (x : float) : is_zero x = false -> x + zero = x.
Proof.
  intros Z. apply Prim2SF_inj. rewrite add_spec.
  change (Prim2SF zero) with (S754_zero false).
  destruct (Prim2SF x) as [s|[]| |[] m e] eqn:E; try reflexivity.
  assert (is_zero x = true) by (apply zero_spec; eauto). congruence.
Qed.

Lemma add_zero_l (x : float) : is_zero x = false -> zero + x = x.
Proof.
  intros Z. apply Prim2SF_inj. rewrite add_spec.
  change (Prim2SF zero) with (S754_zero false).
  destruct (Prim2SF x) as [s|[]| |[] m e] eqn:E; try reflexivity.
  assert (is_zero x = true) by (apply zero_spec; eauto). congruence.
Qed.

Lemma Math_max_zero_pos (x : float) :
  (zero <? x) = true -> F64.Math_max zero x = x.
Proof.
  intros P. pose proof P as P'. rewrite ltb_cmp in P'.
  destruct (F64.cmp zero x) as [[]|] eqn:H; try discriminate.
  destruct (cmp_number _ _ _ H) as [_ N].
  unfold F64.Math_max. change (is_nan zero) with false.
  now rewrite N, P.
Qed.

(** A value that is not above the lower of two ordered bounds is limited
    to the lower bound. *)
Lemma limitBounds_lower (v lo hi : float) :
  (v <=? lo) = true -> (lo <=? hi) = true ->
  (limitBounds v (Bounds.mk lo hi) =? lo) = true.
Proof.
  rewrite !leb_cmp. intros Hvl Hlh.
  destruct (F64.cmp v lo) as [vl|] eqn:Evl; [| discriminate].
  destruct (F64.cmp lo hi) as [lh|] eqn:Elh; [| discriminate].
  destruct (cmp_number _ _ _ Evl) as [Nv Nl].
  destruct (cmp_number _ _ _ Elh) as [_ Nh].
  destruct (cmp_defined v hi Nv Nh) as [vh Evh].
  pose proof (limitBounds_ordered _ _ _ _ _ _ Evl Elh Evh) as H.
  pose proof (SFcompare_chained _ _ _ _ _ _ Evl Elh Evh) as Hch.
  destruct vl, lh, vh; cbn in *; try discriminate; try exact H.
  all: apply (eqb_trans _ _ _ H); now rewrite eqb_cmp, Evl.
Qed.

Lemma eqb_sub_zero (x y : float) :
  (x =? y) = true -> is_finite y = true -> is_zero (x - y) = true.
Proof.
  rewrite eqb_spec. unfold SFeqb. intros E F.
  pose proof F as F'. apply is_finite_spec in F'.
  destruct (Prim2SF x) as [sx|sx| |sx mx ex] eqn:Ex,
           (Prim2SF y) as [sy|sy| |sy my ey] eqn:Ey;
    try contradiction; try discriminate;
    try (destruct sx, sy; cbn in E; discriminate).
  - apply zero_spec. rewrite sub_spec, Ex, Ey. destruct sx, sy; cbn; eauto.
  - assert (x = y) as ->.
    { apply cmp_eq_sign.
      - unfold F64.cmp. rewrite Ex, Ey.
        destruct (SFcompare _ _) as [[]|]; try discriminate; reflexivity.
      - rewrite !get_sign_spec, Ex, Ey.
        destruct sx, sy; try reflexivity; cbn in E; discriminate. }
    now rewrite (sub_diag y F).
Qed.

Lemma add_zeros (x y : float) :
  is_zero x = true -> is_zero y = true -> is_zero (x + y) = true.
Proof.
  intros X Y. apply zero_spec in X, Y. destruct X as [sx Ex], Y as [sy Ey].
  apply zero_spec. rewrite add_spec, Ex, Ey. destruct sx, sy; cbn; eauto.
Qed.

Lemma sub_zeros (x y : float) :
  is_zero x = true -> is_zero y = true -> is_zero (x - y) = true.
Proof.
  intros X Y. apply zero_spec in X, Y. destruct X as [sx Ex], Y as [sy Ey].
  apply zero_spec. rewrite sub_spec, Ex, Ey. destruct sx, sy; cbn; eauto.
Qed.

Lemma finite_mul_zero_any (x z : float) :
  is_finite x = true -> is_zero z = true -> is_zero (x * z) = true.
Proof.
  intros F Z. apply zero_spec in Z. destruct Z as [sz Ez].
  apply is_finite_spec in F. apply zero_spec. rewrite mul_spec, Ez.
  destruct (Prim2SF x) as [sx|sx| |sx mx ex]; try contradiction; cbn; eauto.
Qed.

Lemma one_sub_zero (z : float) : is_zero z = true -> one - z = one.
Proof.
  intros Z. apply zero_spec in Z. destruct Z as [sz Ez].
  apply Prim2SF_inj. rewrite sub_spec, Ez. now destruct sz.
Qed.

Lemma Math_max_zeros (z : float) :
  is_zero z = true -> is_zero (F64.Math_max z zero) = true.
Proof.
  intros Z.
  destruct (Math_max_choice z zero (is_zero_number z Z) eq_refl) as [E | E];
    rewrite E; [exact Z | reflexivity].
Qed.

Lemma Math_max_zero_of_zero (z : float) :
  is_zero z = true -> is_zero (F64.Math_max zero z) = true.
Proof.
  intros Z.
  destruct (Math_max_choice zero z eq_refl (is_zero_number z Z)) as [E | E];
    rewrite E; [reflexivity | exact Z].
Qed.

Lemma zero_ltb_zero (z : float) : is_zero z = true -> (zero <? z) = false.
Proof.
  intros Z. apply zero_spec in Z. destruct Z as [sz Ez].
  rewrite ltb_spec, Ez. reflexivity.
Qed.

Lemma sqrt_zero (z : float) :
  is_zero z = true -> is_zero (PrimFloat.sqrt z) = true.
Proof.
  intros Z. apply zero_spec in Z. destruct Z as [s E]. apply zero_spec.
  rewrite sqrt_spec, E. cbn. eauto.
Qed.

(** [rootRange] from zero at a zero. *)
Lemma rootRange_of_zero (z re : float) :
  is_zero z = true -> is_finite re = true -> is_zero re = false ->
  is_zero (rootRange z zero re) = true.
Proof.
  intros Z F Zr. unfold rootRange. cbn -[F64.Math_max].
  change (F64.of_Z 0) with zero. rewrite !sub_zero_r.
  apply zero_mul_finite_any; [| exact F].
  apply sqrt_zero, zero_div_number;
    [now apply Math_max_zero_of_zero | now apply finite_number | exact Zr].
Qed.

(** * The specification, claim by claim *)

(** ** C1: the round trip *)

(** C1.  The round trip is lost where the linear region does not fit
    between [min] and [max].  [resolveConfig] caps [linearAbsolute] by
    [bounds.max * linearPercent], a value, while the two transforms use it
    as a width above [min]: with 1000 steps, the bounds [{900, 1000}] and
    the linear region [{maxLinear: 500, linearPercent: 50}],
    [linearAbsolute] is 500 for a range of 100; step 500 is mapped to the
    model value 1400 and that value back to step 100. *)
Lemma roundTrip_narrow_bounds :
  ResolvedConfig.linearAbsolute
    (resolveConfig 1000 Tests.narrowBounds Tests.halfLinear) = 500
  /\ ResolvedConfig.range
       (resolveConfig 1000 Tests.narrowBounds Tests.halfLinear) = 100
  /\ stepToModel 500 1000 Tests.narrowBounds Tests.halfLinear = 1400
  /\ modelToStep 1400 1000 Tests.narrowBounds Tests.halfLinear = 100
  /\ Tests.toBe 500
       (modelToStep (stepToModel 500 1000 Tests.narrowBounds
                                 Tests.halfLinear)
                    1000 Tests.narrowBounds Tests.halfLinear)
     = false.
Proof. vm_compute. repeat split; reflexivity. Qed.

(** ** C2: the values of stepToModel *)

(** C2.  [stepToModel] leaves [[min, max]] where the linear region does not
    fit: with 1000 steps, the bounds [{900, 1000}] and the linear region
    [{maxLinear: 500, linearPercent: 50}], which meet the conditions of the
    claim, step 500 is mapped to 1400, above [max = 1000]. *)
Lemma stepToModel_narrow_bounds :
  ResolvedConfig.min (resolveConfig 1000 Tests.narrowBounds Tests.halfLinear)
  = 900
  /\ ResolvedConfig.max
       (resolveConfig 1000 Tests.narrowBounds Tests.halfLinear) = 1000
  /\ stepToModel 500 1000 Tests.narrowBounds Tests.halfLinear = 1400
  /\ (1400 <=? 1000) = false.
Proof. vm_compute. repeat split; reflexivity. Qed.

(** ** C3: the ends of the range *)

(** C3.  The upper end is missed where the linear region does not fit: with
    1000 steps, the bounds [{900, 1000}] and the linear region
    [{maxLinear: 500, linearPercent: 50}], [modelToStep] maps [max = 1000]
    to step 100, not to [steps]; and with the bounds [{500, 1000}] and
    [{maxLinear: 2000, linearPercent: 100}], where [max] is [maxLinear]
    and [linearAbsolute] is capped at 1000, [stepToModel] maps [steps] to
    1500, not to [max = 2000]. *)
Lemma boundary_narrow_bounds :
  ResolvedConfig.max (resolveConfig 1000 Tests.narrowBounds Tests.halfLinear)
  = 1000
  /\ modelToStep 1000 1000 Tests.narrowBounds Tests.halfLinear = 100
  /\ ResolvedConfig.max
       (resolveConfig 1000 Tests.filledBounds
                      (Some (LinearConfig.mk 2000 100))) = 2000
  /\ stepToModel 1000 1000 Tests.filledBounds
                 (Some (LinearConfig.mk 2000 100)) = 1500.
Proof. vm_compute. repeat split; reflexivity. Qed.

(** ** C4: what resolveConfig returns *)

(** C4.  [resolveConfig] returns the record with
    [linearPercent = linear.linearPercent / 100],
    [linearAbsolute] the minimum of [linear.maxLinear] and
    [round(bounds.max * (linear.linearPercent / 100))],
    [max = linear.maxLinear] when [linear.linearPercent === 100] and
    [bounds.max] otherwise, [min = bounds.min], [range = max - bounds.min]
    and [steps] copied through; an absent [linear] is resolved as
    [{maxLinear: 0, linearPercent: 0}].  This holds for the numbers of the
    code and for every other implementation of the operations. *)
Theorem resolveConfig_fields {num : Type} {JS : JSNumber num}
    (steps : num) (bounds : Bounds.t num) :
  (forall linear : LinearConfig.t num,
      let cfg := resolveConfig steps bounds (Some linear) in
      ResolvedConfig.linearPercent cfg
      = (LinearConfig.linearPercent linear / 100)%js
      /\ ResolvedConfig.linearAbsolute cfg
         = Math_min (LinearConfig.maxLinear linear)
                    (Math_round
                       (Bounds.max bounds
                        * (LinearConfig.linearPercent linear / 100))%js)
      /\ ResolvedConfig.max cfg
         = (if (LinearConfig.linearPercent linear === 100)%js
            then LinearConfig.maxLinear linear
            else Bounds.max bounds)
      /\ ResolvedConfig.min cfg = Bounds.min bounds
      /\ ResolvedConfig.range cfg
         = (ResolvedConfig.max cfg - Bounds.min bounds)%js
      /\ ResolvedConfig.steps cfg = steps)
  /\ resolveConfig steps bounds None
     = resolveConfig steps bounds (Some (LinearConfig.mk 0 0)%js).
Proof.
  split; [intros linear; cbn; repeat split | reflexivity].
Qed.

(** ** C5: divisors that are zero *)




(** ** C6: monotonicity *)

(** C6.  [stepToModel] decreases where the linear region does not fit: with
    1000 steps, the bounds [{900, 1000}] and the linear region
    [{maxLinear: 500, linearPercent: 50}], step 500 is mapped to 1400 and
    the later step 750 to 1300 (the exponential region has the width
    [100 - 500]). *)
Lemma monotonicity_narrow_bounds :
  (500 <=? 750) = true
  /\ stepToModel 500 1000 Tests.narrowBounds Tests.halfLinear = 1400
  /\ stepToModel 750 1000 Tests.narrowBounds Tests.halfLinear = 1300
  /\ (1400 <=? 1300) = false.
Proof. vm_compute. repeat split; reflexivity. Qed.

(** ** C7: the invariant of linearAbsolute *)




(** ** C8: continuity at the seam *)



(** The configuration of the witness, as [resolveConfig] gives it: 10
    steps, 42 percent.  There [steps * linearPercent / steps] is
    0.42000000000000004, above [linearPercent], and the code takes the
    exponential branch at the seam. *)
Example seam_config :
  resolveConfig 10 (Bounds.mk 500 1250000) (Some (LinearConfig.mk 15000 42))
  = ResolvedConfig.mk 10 15000 0.42 500 1250000 1249500
  /\ 10 * 0.42 / 10 = 0.42000000000000004.
Proof. split; reflexivity. Qed.


(** On the tests' fixture the two branches agree to the last bit at the
    seam. *)
Example seam_binary64 :
  let cfg := resolveConfig Tests.steps Tests.bounds Tests.linearConfig in
  let step := Tests.steps * ResolvedConfig.linearPercent cfg in
  let percent := step / Tests.steps in
  linearBranch percent cfg = 15500
  /\ exponentialBranch step percent cfg = 15500.
Proof. vm_compute. split; reflexivity. Qed.

(** ** C9: no linear configuration *)

(** C9, as stated, fails: with [bounds.max <= 0] the test
    [linearAbsolute >= max] sends the code into its fully linear branch
    (bounds [{-100, 0}], 10 steps, step 5: -50, the square law gives -75);
    with [bounds.max = bounds.min] the code divides 0 by 0 in [expRange]
    (bounds [{5, 5}]: NaN, the square law gives 5); and with
    [bounds.max > 0] the code squares [(p * r) / r], not [p] (step 29 of
    10000 over [{500, 1500000}]: 512.61079499999994, the formula of the
    claim gives 512.61079500000005). *)
Lemma square_law_counterexample :
  ResolvedConfig.linearAbsolute (resolveConfig 10 (Bounds.mk (-100) 0) None)
  = 0
  /\ stepToModel 5 10 (Bounds.mk (-100) 0) None = -50
  /\ 5 / 10 * (5 / 10) * (0 - -100) + -100 = -75
  /\ is_nan (stepToModel 5 10 (Bounds.mk 5 5) None) = true
  /\ 5 / 10 * (5 / 10) * (5 - 5) + 5 = 5
  /\ stepToModel 29 10000 (Bounds.mk 500 1500000) None
     = 512.61079499999994
  /\ 29 / 10000 * (29 / 10000) * (1500000 - 500) + 500
     = 512.61079500000005.
Proof. vm_compute. repeat split; reflexivity. Qed.

(** C9, amended.  Without linear configuration, for [steps > 0] finite,
    [bounds.max > 0] finite, a range [r = bounds.max - bounds.min] that is
    finite and not zero, and a step of [[0, steps]]: with
    [p = step / steps] and [q = (p * r) / r], [stepToModel] returns
    [0 + (q * q * r + 0) + bounds.min], each operation in binary64.  This
    is the square law of the claim with [q] for [p]: the two differ by
    the rounding of [(p * r) / r]. *)
Theorem square_law_binary64 (step steps bmin bmax : float) :
  let r := bmax - bmin in
  let p := step / steps in
  let q := p * r / r in
  (0 <? steps) = true -> is_finite steps = true ->
  (0 <? bmax) = true -> is_finite bmax = true ->
  is_finite r = true -> is_zero r = false ->
  (0 <=? step) = true -> (step <=? steps) = true ->
  stepToModel step steps (Bounds.mk bmin bmax) None
  = 0 + (q * q * r + 0) + bmin.
Proof.
  intros r p q PS FS PM FM Fr Zr L0 L1. subst q p r.
  change 0 with zero in *.
  unfold stepToModel. rewrite (resolveConfig_absent_F64 _ _ _ PM FM).
  assert (Hmode : (bmax <=? zero) = false).
  { rewrite leb_cmp. rewrite ltb_cmp in PM. rewrite (cmp_opp zero bmax).
    destruct (F64.cmp zero bmax) as [[]|]; try discriminate; reflexivity. }
  unfold stepToModelInternal, linearBranch, exponentialBranch, expRange.
  cbn -[limitBounds F64.Math_min F64.Math_pow2].
  change (F64.of_Z 0) with zero. change (F64.of_Z 1 - zero) with one.
  rewrite Hmode. change (zero <? zero) with false. cbv iota.
  change (zero * zero) with zero.
  rewrite !sub_zero_r, mul_one_r, (pos_mul_zero steps PS FS), !sub_zero_r.
  unfold F64.Math_pow2.
  destruct (leb_zero_cases step L0) as [Z0 | P0].
  - (* step is a zero *)
    pose proof (limitBounds_inside_zero step steps Z0 PS) as Zs.
    set (s' := limitBounds step (Bounds.mk zero steps)) in *.
    assert (Zq : forall z, is_zero z = true -> is_zero (z / steps) = true).
    { intros z Hz. apply zero_spec in Hz. destruct Hz as [sz Ez].
      destruct (pos_finite_spec steps PS FS) as (m & e & Es).
      apply zero_spec. rewrite div_spec, Ez, Es. cbn. eauto. }
    assert (Lq : (s' / steps <=? zero) = true).
    { pose proof (Zq s' Zs) as H. unfold is_zero in H.
      rewrite leb_cmp. rewrite eqb_cmp in H.
      destruct (F64.cmp (s' / steps) zero) as [[]|]; congruence. }
    rewrite Lq. change 0 with zero.
    now rewrite (square_law_zero _ _ (Zq step Z0) Fr Zr).
  - (* step is positive *)
    rewrite (limitBounds_inside_pos step steps P0 L1).
    destruct (step / steps <=? zero) eqn:Lq; [| reflexivity].
    pose proof (div_pos_zero step steps P0 PS Lq) as Zp.
    change 0 with zero. now rewrite (square_law_zero _ _ Zp Fr Zr).
Qed.

Lemma square_law_binary64_witness :
  stepToModel 29 10000 (Bounds.mk 500 1500000) None
  = 0 + (29 / 10000 * (1500000 - 500) / (1500000 - 500)
         * (29 / 10000 * (1500000 - 500) / (1500000 - 500))
         * (1500000 - 500) + 0) + 500.
Proof.
  apply (square_law_binary64 29 10000 500 1500000); reflexivity.
Defined.

(** ** C10: limitBounds *)

(** C10, as stated ("regardless of value"), fails for a value that is not
    a number: [limitBounds(NaN, {min: 5, max: 3})] is NaN, not
    [bounds.max]. *)
Lemma limitBounds_counterexample :
  is_nan (limitBounds nan (Bounds.mk 5 3)) = true
  /\ (limitBounds nan (Bounds.mk 5 3) =? 3) = false.
Proof. vm_compute. split; reflexivity. Qed.

(** C10, amended.  The cases of [limitBounds] for every binary64 value that
    is a number: [bounds.max] for crossed bounds, and for ordered bounds the
    value inside them, [bounds.min] below and [bounds.max] above.  ([===]
    where the result may be a zero of the other sign.) *)
Lemma limitBounds_binary64_cases (value lo hi : float) :
  is_nan value = false ->
  ((hi <? lo) = true -> limitBounds value (Bounds.mk lo hi) = hi)
  /\ ((lo <=? hi) = true ->
      ((lo <=? value) = true -> (value <=? hi) = true ->
       (limitBounds value (Bounds.mk lo hi) =? value) = true)
      /\ ((value <? lo) = true ->
          (limitBounds value (Bounds.mk lo hi) =? lo) = true)
      /\ ((hi <? value) = true ->
          limitBounds value (Bounds.mk lo hi) = hi)).
Proof.
  intros Nv.
  assert (Hcases : forall lh, F64.cmp lo hi = Some lh ->
            exists vl vh,
              F64.cmp value lo = Some vl /\ F64.cmp value hi = Some vh).
  { intros lh Hlh. destruct (cmp_number _ _ _ Hlh) as [Nl Nh].
    destruct (cmp_defined value lo Nv Nl) as [vl Hvl].
    destruct (cmp_defined value hi Nv Nh) as [vh Hvh].
    now exists vl, vh. }
  split.
  - rewrite ltb_cmp, cmp_opp. destruct (F64.cmp lo hi) as [lh |] eqn:Hlh;
      [| discriminate].
    destruct (Hcases lh eq_refl) as (vl & vh & Hvl & Hvh).
    pose proof (limitBounds_ordered _ _ _ _ _ _ Hvl Hlh Hvh) as H.
    destruct lh; cbn; intros E; try discriminate. exact H.
  - rewrite leb_cmp. destruct (F64.cmp lo hi) as [lh |] eqn:Hlh;
      [| discriminate].
    destruct (Hcases lh eq_refl) as (vl & vh & Hvl & Hvh).
    pose proof (limitBounds_ordered _ _ _ _ _ _ Hvl Hlh Hvh) as H.
    pose proof (SFcompare_chained _ _ _ _ _ _ Hvl Hlh Hvh) as Hch.
    rewrite !leb_cmp, !ltb_cmp, (cmp_opp value lo), (cmp_opp value hi),
      Hvl, Hvh.
    destruct lh; intros E; try discriminate;
      destruct vl, vh; cbn in *; repeat split; intros; try discriminate;
      exact H.
Qed.

Lemma limitBounds_binary64_cases_witness :
  limitBounds 7 (Bounds.mk 5 3) = 3
  /\ (limitBounds 4 (Bounds.mk 3 5) =? 4) = true
  /\ (limitBounds 1 (Bounds.mk 3 5) =? 3) = true
  /\ limitBounds 9 (Bounds.mk 3 5) = 5.
Proof.
  split; [| split; [| split]].
  - apply (proj1 (limitBounds_binary64_cases 7 5 3 eq_refl)). reflexivity.
  - destruct (proj2 (limitBounds_binary64_cases 4 3 5 eq_refl) eq_refl)
      as (H & _ & _).
    apply H; reflexivity.
  - destruct (proj2 (limitBounds_binary64_cases 1 3 5 eq_refl) eq_refl)
      as (_ & H & _).
    apply H; reflexivity.
  - destruct (proj2 (limitBounds_binary64_cases 9 3 5 eq_refl) eq_refl)
      as (_ & _ & H).
    apply H; reflexivity.
Defined.

(** * Beyond the specification *)

(** ** limitBounds *)

(** X6.  [limitBounds] is idempotent in binary64, to the bit: limiting a
    limited value changes nothing, for every value and all bounds, NaN,
    the two zeros and crossed bounds included. *)
Theorem limitBounds_idempotent_binary64 (value lo hi : float) :
  limitBounds (limitBounds value (Bounds.mk lo hi)) (Bounds.mk lo hi)
  = limitBounds value (Bounds.mk lo hi).
Proof.
  destruct (is_nan value || is_nan lo || is_nan hi) eqn:N.
  { rewrite (limitBounds_nan value lo hi N).
    now apply limitBounds_nan. }
  apply orb_false_iff in N. destruct N as [N Nh].
  apply orb_false_iff in N. destruct N as [Nv Nl].
  rewrite !limitBounds_F64.
  destruct (Math_max_choice value lo Nv Nl) as [Em | Em]; rewrite Em.
  - destruct (Math_min_choice value hi Nv Nh) as [Er | Er]; rewrite Er.
    + now rewrite Em, Er.
    + destruct (Math_max_choice hi lo Nh Nl) as [E | E]; rewrite E.
      * apply Math_min_diag.
      * now apply Math_max_min_dual.
  - destruct (Math_min_choice lo hi Nl Nh) as [Er | Er]; rewrite Er.
    + now rewrite Math_max_diag, Er.
    + destruct (Math_max_choice hi lo Nh Nl) as [E | E]; rewrite E.
      * apply Math_min_diag.
      * now apply Math_max_min_dual.
Qed.

(** X7.  [limitBounds] keeps the order of its values: for bounds that are
    numbers, [v <= w] gives
    [limitBounds v bounds <= limitBounds w bounds]. *)
Theorem limitBounds_monotone_binary64 (v w lo hi : float) :
  is_nan lo = false -> is_nan hi = false -> (v <=? w) = true ->
  (limitBounds v (Bounds.mk lo hi) <=? limitBounds w (Bounds.mk lo hi))
  = true.
Proof.
  intros Nl Nh L. destruct (leb_number _ _ L) as [Nv Nw].
  rewrite !limitBounds_F64.
  pose proof (Math_max_number v lo Nv Nl) as Nm.
  pose proof (Math_max_number w lo Nw Nl) as Nm'.
  rewrite leb_Math_min, !(Math_min_leb _ _ _ Nm Nh).
  rewrite (leb_refl_number hi Nh), orb_true_r, andb_true_r.
  apply orb_true_iff. left.
  rewrite Math_max_leb, !(leb_Math_max _ _ _ Nw Nl).
  now rewrite L, (leb_refl_number lo Nl), orb_true_r.
Qed.

Lemma limitBounds_monotone_binary64_witness :
  (limitBounds 2 (Bounds.mk 3 5) <=? limitBounds 4 (Bounds.mk 3 5)) = true.
Proof.
  apply (limitBounds_monotone_binary64 2 4 3 5); reflexivity.
Defined.

(** X15.  NaN goes through [limitBounds]: the result is NaN as soon as the
    value or one of the two bounds is NaN. *)
Theorem limitBounds_nan_contagion (value lo hi : float) :
  (is_nan value = true -> limitBounds value (Bounds.mk lo hi) = nan)
  /\ (is_nan lo = true -> limitBounds value (Bounds.mk lo hi) = nan)
  /\ (is_nan hi = true -> limitBounds value (Bounds.mk lo hi) = nan).
Proof.
  repeat split; intros H; apply limitBounds_nan; rewrite H;
    now rewrite ?orb_true_r.
Qed.

Lemma limitBounds_nan_contagion_witness :
  limitBounds nan (Bounds.mk 3 5) = nan
  /\ limitBounds 4 (Bounds.mk nan 5) = nan
  /\ limitBounds 4 (Bounds.mk 3 nan) = nan.
Proof.
  split; [| split].
  - apply (proj1 (limitBounds_nan_contagion nan 3 5)). reflexivity.
  - apply (proj1 (proj2 (limitBounds_nan_contagion 4 nan 5))). reflexivity.
  - apply (proj2 (proj2 (limitBounds_nan_contagion 4 3 nan))). reflexivity.
Defined.

(** X16.  For ordered bounds and a value that is a number, the result of
    [limitBounds] is within the bounds: [min <= result <= max]. *)
Theorem limitBounds_within_binary64 (value lo hi : float) :
  is_nan value = false -> (lo <=? hi) = true ->
  (lo <=? limitBounds value (Bounds.mk lo hi)) = true
  /\ (limitBounds value (Bounds.mk lo hi) <=? hi) = true.
Proof.
  intros Nv. rewrite !leb_cmp.
  destruct (F64.cmp lo hi) as [lh |] eqn:Hlh; [| discriminate].
  destruct (cmp_number _ _ _ Hlh) as [Nl Nh].
  destruct (cmp_defined value lo Nv Nl) as [vl Hvl].
  destruct (cmp_defined value hi Nv Nh) as [vh Hvh].
  pose proof (limitBounds_ordered _ _ _ _ _ _ Hvl Hlh Hvh) as H.
  pose proof (SFcompare_chained _ _ _ _ _ _ Hvl Hlh Hvh) as Hch.
  pose proof (cmp_opp value lo) as Hlv. rewrite Hvl in Hlv.
  pose proof (proj1 (is_nan_cmp lo) Nl) as Hll.
  pose proof (proj1 (is_nan_cmp hi) Nh) as Hhh.
  set (r := limitBounds value (Bounds.mk lo hi)) in *.
  intros E.
  destruct lh; try discriminate; destruct vl, vh; cbn in *;
    try discriminate;
    first
      [ rewrite (eqb_cmp_r _ _ _ _ H Hll), (eqb_cmp_l _ _ _ _ H Hlh);
        now split
      | rewrite (eqb_cmp_r _ _ _ _ H Hlv), (eqb_cmp_l _ _ _ _ H Hvh);
        now split
      | rewrite H, Hlh, Hhh; now split ].
Qed.

Lemma limitBounds_within_binary64_witness :
  (3 <=? limitBounds 7 (Bounds.mk 3 5)) = true
  /\ (limitBounds 7 (Bounds.mk 3 5) <=? 5) = true.
Proof. apply (limitBounds_within_binary64 7 3 5); reflexivity. Defined.

(** ** rootRange *)

(** X4.  [rootRange] from zero, as [modelToStepInternal] calls it, never
    takes the root of a negative number: for a range [max] that is finite
    and not zero, a value that is not above zero gives a zero. *)
Theorem rootRange_not_above_zero (value mx : float) :
  (value <=? 0) = true -> is_finite mx = true -> is_zero mx = false ->
  is_zero (rootRange value 0 mx) = true.
Proof.
  intros L F Z. change 0 with zero in *.
  unfold rootRange. cbn -[F64.Math_max].
  change (F64.of_Z 0) with zero.
  rewrite !sub_zero_r.
  assert (Nm : is_nan mx = false).
  { unfold is_finite in F. rewrite negb_true_iff, orb_false_iff in F.
    apply F. }
  assert (E : F64.Math_max zero value = zero).
  { rewrite leb_cmp in L.
    destruct (F64.cmp value zero) as [c|] eqn:H; [| discriminate].
    destruct (cmp_number _ _ _ H) as [Nv _].
    pose proof (cmp_opp value zero) as H'. rewrite H in H'.
    unfold F64.Math_max.
    change (is_nan zero) with false. change (get_sign zero) with false.
    rewrite Nv, !ltb_cmp, H, H'.
    destruct c; cbn in *; try discriminate; reflexivity. }
  rewrite E.
  pose proof (zero_div_number zero mx eq_refl Nm Z) as Zq.
  assert (Zs : is_zero (PrimFloat.sqrt (zero / mx)) = true).
  { apply zero_spec in Zq. destruct Zq as [s Eq]. apply zero_spec.
    rewrite sqrt_spec, Eq. cbn. eauto. }
  now apply zero_mul_finite_any.
Qed.

Lemma rootRange_not_above_zero_witness :
  is_zero (rootRange (-4) 0 1234500) = true.
Proof.
  apply (rootRange_not_above_zero (-4) 1234500); reflexivity.
Defined.

(** ** Values outside the bounds *)

(** X17.  [stepToModel] saturates: a step below 0 gives what step 0 gives,
    and a step above [steps] gives what [steps] gives, to the bit, for every
    number of steps, all bounds and every linear configuration. *)
Theorem stepToModel_saturates_binary64 (step steps : float)
    (b : Bounds.t float) (linear : option (LinearConfig.t float)) :
  ((step <? 0) = true ->
   stepToModel step steps b linear = stepToModel 0 steps b linear)
  /\ ((steps <? step) = true ->
      stepToModel step steps b linear = stepToModel steps steps b linear).
Proof.
  unfold stepToModel.
  split; intros H; apply stepToModelInternal_clamped;
    [now apply limitBounds_below | now apply limitBounds_above].
Qed.

Lemma stepToModel_saturates_binary64_witness :
  stepToModel (-5) 1000 (Bounds.mk 500 1250000)
              (Some (LinearConfig.mk 15000 75))
  = stepToModel 0 1000 (Bounds.mk 500 1250000)
                (Some (LinearConfig.mk 15000 75))
  /\ stepToModel 1001 1000 (Bounds.mk 500 1250000)
                 (Some (LinearConfig.mk 15000 75))
     = stepToModel 1000 1000 (Bounds.mk 500 1250000)
                   (Some (LinearConfig.mk 15000 75)).
Proof.
  split.
  - apply (proj1 (stepToModel_saturates_binary64 (-5) 1000
                    (Bounds.mk 500 1250000)
                    (Some (LinearConfig.mk 15000 75)))).
    reflexivity.
  - apply (proj2 (stepToModel_saturates_binary64 1001 1000
                    (Bounds.mk 500 1250000)
                    (Some (LinearConfig.mk 15000 75)))).
    reflexivity.
Defined.

(** X18.  [modelToStep] saturates: a model value below [bounds.min] gives
    what [bounds.min] gives, and a model value above the resolved [max]
    gives what that [max] gives, to the bit, for every number of steps, all
    bounds and every linear configuration. *)
Theorem modelToStep_saturates_binary64 (model steps : float)
    (b : Bounds.t float) (linear : option (LinearConfig.t float)) :
  let config := resolveConfig steps b linear in
  ((model <? Bounds.min b) = true ->
   modelToStep model steps b linear
   = modelToStep (Bounds.min b) steps b linear)
  /\ ((ResolvedConfig.max config <? model) = true ->
      modelToStep model steps b linear
      = modelToStep (ResolvedConfig.max config) steps b linear).
Proof.
  unfold modelToStep.
  split; intros H; apply modelToStepInternal_clamped;
    [now apply limitBounds_below | now apply limitBounds_above].
Qed.

Lemma modelToStep_saturates_binary64_witness :
  modelToStep 100 1000 (Bounds.mk 500 1250000)
              (Some (LinearConfig.mk 15000 75))
  = modelToStep 500 1000 (Bounds.mk 500 1250000)
                (Some (LinearConfig.mk 15000 75))
  /\ modelToStep 2000000 1000 (Bounds.mk 500 1250000)
                 (Some (LinearConfig.mk 15000 75))
     = modelToStep 1250000 1000 (Bounds.mk 500 1250000)
                   (Some (LinearConfig.mk 15000 75)).
Proof.
  split.
  - apply (proj1 (modelToStep_saturates_binary64 100 1000
                    (Bounds.mk 500 1250000)
                    (Some (LinearConfig.mk 15000 75)))).
    reflexivity.
  - apply (proj2 (modelToStep_saturates_binary64 2000000 1000
                    (Bounds.mk 500 1250000)
                    (Some (LinearConfig.mk 15000 75)))).
    reflexivity.
Defined.

(** ** NaN *)

(** X19.  Both transforms return NaN for NaN, whatever the configuration:
    no branch replaces a step or a model value that is not a number. *)
Theorem transforms_propagate_nan (config : ResolvedConfig.t float) :
  stepToModelInternal nan config = nan
  /\ modelToStepInternal nan config = nan.
Proof.
  destruct config as [steps la lp mn mx range]. split.
  - unfold stepToModelInternal, exponentialBranch.
    cbn -[limitBounds expRange F64.Math_min].
    rewrite limitBounds_nan by reflexivity.
    repeat (progress rewrite ?nan_div_l, ?nan_mul_l, ?nan_sub_l, ?nan_add_l,
              ?nan_add_r, ?nan_leb_l, ?expRange_nan, ?rootRange_nan).
    now destruct (mx <=? la), (0 <? lp).
  - unfold modelToStepInternal.
    cbn -[limitBounds rootRange F64.Math_max F64.Math_round].
    rewrite limitBounds_nan by reflexivity.
    rewrite nan_sub_l.
    change (F64.Math_max nan (F64.of_Z 0)) with nan.
    rewrite nan_leb_l, andb_false_r.
    repeat (progress rewrite ?nan_div_l, ?nan_mul_l, ?nan_sub_l, ?nan_add_l,
              ?nan_add_r, ?nan_leb_l, ?expRange_nan, ?rootRange_nan).
    now destruct (mx <=? la).
Qed.

(** X20.  With [steps] zero, of either sign, [stepToModelInternal] returns
    NaN for every step and every configuration: [percent] is a zero or NaN
    divided by zero, and no branch replaces it. *)
Theorem stepToModelInternal_zero_steps_binary64 (step : float)
    (config : ResolvedConfig.t float) :
  is_zero (ResolvedConfig.steps config) = true ->
  stepToModelInternal step config = nan.
Proof.
  destruct config as [steps la lp mn mx range]. cbn [ResolvedConfig.steps].
  intros Z.
  pose proof (limitBounds_vanishing step steps Z) as Hs.
  pose proof (vanishing_zero _ Z) as Hz.
  unfold stepToModelInternal, exponentialBranch.
  cbn -[limitBounds expRange F64.Math_min].
  change (F64.of_Z 0) with zero.
  set (s := limitBounds step (Bounds.mk zero steps)) in *.
  rewrite (div_vanishing s steps Hs Hz).
  rewrite nan_leb_l.
  rewrite (div_vanishing (s - steps * lp) (steps * (1 - lp))
             (sub_vanishing _ _ Hs (mul_vanishing _ _ Hz))
             (mul_vanishing _ _ Hz)).
  rewrite !nan_mul_l, expRange_nan, nan_add_r, !nan_add_l.
  now destruct (mx <=? la).
Qed.

Lemma stepToModelInternal_zero_steps_binary64_witness :
  stepToModelInternal 5
    (resolveConfig (- 0) (Bounds.mk 500 1250000)
                   (Some (LinearConfig.mk 15000 75)))
  = nan.
Proof.
  apply (stepToModelInternal_zero_steps_binary64 5
           (resolveConfig (- 0) (Bounds.mk 500 1250000)
                          (Some (LinearConfig.mk 15000 75)))).
  reflexivity.
Defined.

(** ** The lower end and the default configuration *)

(** X21.  Step 0 gives [min] in binary64 as well: for [steps > 0],
    [linearPercent >= 0], finite [linearAbsolute] and [range] and a [min]
    that is a number, [stepToModelInternal 0 config === min], without any
    rounding error. *)
Theorem stepToModelInternal_first_binary64
    (config : ResolvedConfig.t float) :
  (0 <? ResolvedConfig.steps config) = true ->
  (0 <=? ResolvedConfig.linearPercent config) = true ->
  is_finite (ResolvedConfig.linearAbsolute config) = true ->
  is_finite (ResolvedConfig.range config) = true ->
  is_nan (ResolvedConfig.min config) = false ->
  (stepToModelInternal 0 config =? ResolvedConfig.min config) = true.
Proof.
  destruct config as [steps la lp mn mx range]. cbn.
  intros HS Hlp Fla Fr Nm.
  unfold stepToModelInternal, linearBranch.
  cbn -[limitBounds exponentialBranch].
  change 0 with zero in *.
  rewrite (limitBounds_zero steps HS), (zero_div_pos steps HS), Hlp.
  destruct (mx <=? la).
  - apply zero_add; [now apply zero_mul_finite | exact Nm].
  - apply zero_add; [| exact Nm].
    destruct (zero <? lp) eqn:P.
    + rewrite (zero_div_pos lp P). now apply zero_mul_finite.
    + now apply zero_mul_finite.
Qed.

Lemma stepToModelInternal_first_binary64_witness :
  (stepToModelInternal 0
     (resolveConfig 1000 (Bounds.mk 500 1250000)
                    (Some (LinearConfig.mk 15000 75)))
   =? 500) = true.
Proof.
  apply (stepToModelInternal_first_binary64
           (resolveConfig 1000 (Bounds.mk 500 1250000)
                          (Some (LinearConfig.mk 15000 75))));
    reflexivity.
Defined.

(** X22.  Without a linear configuration and with a finite [bounds.max],
    [resolveConfig] returns in binary64 a configuration without linear
    region: [linearPercent] is 0, [linearAbsolute] is a zero, [max] is
    [bounds.max], [min] is [bounds.min] and [range] their difference. *)
Theorem resolveConfig_absent_binary64 (steps bmin bmax : float) :
  is_finite bmax = true ->
  let config := resolveConfig steps (Bounds.mk bmin bmax) None in
  ResolvedConfig.steps config = steps
  /\ ResolvedConfig.linearPercent config = 0
  /\ is_zero (ResolvedConfig.linearAbsolute config) = true
  /\ ResolvedConfig.min config = bmin
  /\ ResolvedConfig.max config = bmax
  /\ ResolvedConfig.range config = bmax - bmin.
Proof.
  intros F. cbv zeta.
  pose proof (finite_mul_zero bmax F) as Z.
  unfold resolveConfig. cbn -[F64.Math_min F64.Math_round is_zero].
  change (F64.of_Z 0 / F64.of_Z 100) with zero.
  change (F64.of_Z 0 =? F64.of_Z 100) with false.
  change (F64.of_Z 0) with zero. cbn -[F64.Math_min F64.Math_round is_zero].
  change 0 with zero.
  rewrite (Math_round_zero _ Z), (Math_min_zero _ Z).
  repeat split. exact Z.
Qed.

Lemma resolveConfig_absent_binary64_witness :
  let config := resolveConfig 10000 (Bounds.mk 500 1500000) None in
  ResolvedConfig.steps config = 10000
  /\ ResolvedConfig.linearPercent config = 0
  /\ is_zero (ResolvedConfig.linearAbsolute config) = true
  /\ ResolvedConfig.min config = 500
  /\ ResolvedConfig.max config = 1500000
  /\ ResolvedConfig.range config = 1500000 - 500.
Proof.
  apply (resolveConfig_absent_binary64 10000 500 1500000). reflexivity.
Defined.

(** ** The ends of the range *)

(** X23.  The upper end where the whole range is linear
    ([linearAbsolute >= max], as [linearPercent: 100] gives it): for a
    positive finite number of steps the last step is mapped to
    [range + min], to the bit; and when [range] is [max - min], positive
    and finite, [max] is mapped back to [Math.round(steps)]. *)
Theorem upper_end_fully_linear_binary64 (config : ResolvedConfig.t float) :
  let steps := ResolvedConfig.steps config in
  let mn := ResolvedConfig.min config in
  let mx := ResolvedConfig.max config in
  let range := ResolvedConfig.range config in
  (mx <=? ResolvedConfig.linearAbsolute config) = true ->
  (0 <? steps) = true -> is_finite steps = true ->
  stepToModelInternal steps config = range + mn
  /\ (range = mx - mn -> (0 <? range) = true -> is_finite range = true ->
      modelToStepInternal mx config = F64.Math_round steps).
Proof.
  destruct config as [steps la lp mn mx range]. cbv zeta.
  cbn [ResolvedConfig.steps ResolvedConfig.linearAbsolute
       ResolvedConfig.min ResolvedConfig.max ResolvedConfig.range].
  change 0 with zero. intros Hmode PS FS.
  pose proof (pos_not_zero steps PS) as ZS.
  split.
  - unfold stepToModelInternal.
    cbn -[limitBounds linearBranch exponentialBranch].
    change 0 with zero.
    rewrite Hmode, (limitBounds_inside_pos steps steps PS (leb_refl_pos _ PS)).
    now rewrite (div_diag steps FS ZS), mul_one_l.
  - intros Er Pr Fr.
    pose proof (finite_number _ Fr) as Nr. rewrite Er in Nr.
    destruct (sub_number_args _ _ Nr) as [Nx Nn].
    unfold modelToStepInternal.
    cbn -[limitBounds rootRange F64.Math_max F64.Math_round].
    change 0 with zero.
    rewrite Hmode, (limitBounds_top mn mx Nn Nx), <- Er.
    rewrite (Math_max_pos_zero range Pr).
    now rewrite (div_diag range Fr (pos_not_zero range Pr)), mul_one_l.
Qed.

Lemma upper_end_fully_linear_binary64_witness :
  let config := ResolvedConfig.mk 10000 1000000 1 500 1000000 999500 in
  stepToModelInternal 10000 config = 999500 + 500
  /\ modelToStepInternal 1000000 config = F64.Math_round 10000.
Proof.
  destruct (upper_end_fully_linear_binary64
              (ResolvedConfig.mk 10000 1000000 1 500 1000000 999500))
    as [Hs Hm]; try reflexivity.
  split; [exact Hs | apply Hm; reflexivity].
Defined.

(** The configuration of the witness is the one [resolveConfig] gives for
    [{maxLinear: 1000000, linearPercent: 100}]. *)
Example fully_linear_config :
  resolveConfig 10000 (Bounds.mk 500 1500000)
                (Some (LinearConfig.mk 1000000 100))
  = ResolvedConfig.mk 10000 1000000 1 500 1000000 999500.
Proof. reflexivity. Qed.

(** X24.  The upper end without linear configuration: for a positive
    finite number of steps, [bounds.max > 0] finite and a range
    [r = bounds.max - bounds.min] that is positive and finite, the last
    step is mapped to [r + bounds.min], to the bit, and [bounds.max] back
    to [Math.round(steps)]. *)
Theorem upper_end_no_linear_binary64 (steps bmin bmax : float) :
  let r := bmax - bmin in
  (0 <? steps) = true -> is_finite steps = true ->
  (0 <? bmax) = true -> is_finite bmax = true ->
  (0 <? r) = true -> is_finite r = true ->
  stepToModel steps steps (Bounds.mk bmin bmax) None = r + bmin
  /\ modelToStep bmax steps (Bounds.mk bmin bmax) None
     = F64.Math_round steps.
Proof.
  intros r PS FS PM FM Pr Fr. subst r. change 0 with zero in *.
  pose proof (pos_not_zero _ PS) as ZS.
  pose proof (pos_not_zero _ Pr) as Zr.
  assert (Hmode : (bmax <=? zero) = false).
  { rewrite leb_cmp. rewrite ltb_cmp in PM. rewrite (cmp_opp zero bmax).
    destruct (F64.cmp zero bmax) as [[]|]; try discriminate; reflexivity. }
  unfold stepToModel, modelToStep.
  rewrite (resolveConfig_absent_F64 _ _ _ PM FM).
  split.
  - unfold stepToModelInternal, exponentialBranch, expRange.
    cbn -[limitBounds linearBranch F64.Math_min F64.Math_pow2].
    change (F64.of_Z 0) with zero. change (F64.of_Z 1 - zero) with one.
    rewrite Hmode,
      (limitBounds_inside_pos steps steps PS (leb_refl_pos _ PS)),
      (div_diag steps FS ZS).
    change (one <=? zero) with false. change (zero <? zero) with false.
    cbv iota. unfold F64.Math_pow2.
    rewrite !sub_zero_r, mul_one_r, (pos_mul_zero steps PS FS), !sub_zero_r,
      (div_diag steps FS ZS), mul_one_l, (div_diag _ Fr Zr), !mul_one_l.
    change 0 with zero.
    now rewrite (add_zero_r _ Zr), (add_zero_l _ Zr).
  - pose proof (finite_number _ Fr) as Nr.
    destruct (sub_number_args _ _ Nr) as [Nx Nn].
    unfold modelToStepInternal, rootRange.
    cbn -[limitBounds F64.Math_max F64.Math_round].
    change (F64.of_Z 0) with zero. change (F64.of_Z 1 - zero) with one.
    rewrite Hmode, (limitBounds_top bmin bmax Nn Nx),
      (Math_max_pos_zero _ Pr).
    change (zero <? zero) with false. cbn [andb]. cbv iota.
    rewrite !sub_zero_r, (Math_max_zero_pos _ Pr), (div_diag _ Fr Zr).
    change (PrimFloat.sqrt one) with one.
    rewrite mul_one_l, (div_diag _ Fr Zr), mul_one_l, mul_one_r,
      (pos_mul_zero steps PS FS).
    now rewrite (add_zero_l _ ZS).
Qed.

Lemma upper_end_no_linear_binary64_witness :
  stepToModel 10000 10000 (Bounds.mk 500 1500000) None
  = 1500000 - 500 + 500
  /\ modelToStep 1500000 10000 (Bounds.mk 500 1500000) None
     = F64.Math_round 10000.
Proof.
  apply (upper_end_no_linear_binary64 10000 500 1500000); reflexivity.
Defined.

(** X25.  The lower end of [modelToStepInternal]: for ordered bounds, a
    finite [min], finite [steps] and [linearPercent], a model that is not
    above [min] is mapped to a zero: in the fully linear mode
    ([linearAbsolute >= max]) when [range] is a number other than zero;
    in the linear region when [linearAbsolute > 0]; and without linear
    region ([linearAbsolute] and [linearPercent] zeros) when
    [range - linearAbsolute] is finite and not zero. *)
Theorem modelToStep_lower_end_binary64 (model : float)
    (config : ResolvedConfig.t float) :
  let steps := ResolvedConfig.steps config in
  let la := ResolvedConfig.linearAbsolute config in
  let lp := ResolvedConfig.linearPercent config in
  let mn := ResolvedConfig.min config in
  let mx := ResolvedConfig.max config in
  let range := ResolvedConfig.range config in
  (model <=? mn) = true -> (mn <=? mx) = true -> is_finite mn = true ->
  is_finite steps = true -> is_finite lp = true ->
  ((mx <=? la) = true -> is_nan range = false -> is_zero range = false ->
   is_zero (modelToStepInternal model config) = true)
  /\ ((mx <=? la) = false -> (0 <? la) = true ->
      is_zero (modelToStepInternal model config) = true)
  /\ ((mx <=? la) = false -> is_zero la = true -> is_zero lp = true ->
      is_finite (range - la) = true -> is_zero (range - la) = false ->
      is_zero (modelToStepInternal model config) = true).
Proof.
  destruct config as [steps la lp mn mx range]. cbv zeta.
  cbn [ResolvedConfig.steps ResolvedConfig.linearAbsolute
       ResolvedConfig.linearPercent
       ResolvedConfig.min ResolvedConfig.max ResolvedConfig.range].
  change 0 with zero. intros Lm Lb Fm FS Fl.
  pose proof (limitBounds_lower _ _ _ Lm Lb) as Hl.
  pose proof (Math_max_zeros _ (eqb_sub_zero _ _ Hl Fm)) as Za.
  unfold modelToStepInternal.
  cbn -[limitBounds rootRange F64.Math_max F64.Math_round].
  change (F64.of_Z 0) with zero. change (F64.of_Z 1) with one.
  change 0 with zero. change 1 with one.
  set (a := F64.Math_max (limitBounds model (Bounds.mk mn mx) - mn) zero)
    in *.
  split; [| split].
  - intros Hmode Nr Zr. rewrite Hmode.
    rewrite Math_round_zero;
      apply zero_mul_finite_any; try exact FS.
    all: now apply zero_div_number.
  - intros Hmode Pl. rewrite Hmode, Pl. cbn [andb].
    assert (Hal : F64.cmp a la = Some Lt).
    { apply (eqb_cmp_l a zero la Lt); [exact Za |].
      rewrite ltb_cmp in Pl.
      destruct (F64.cmp zero la) as [[]|]; try discriminate; reflexivity. }
    rewrite leb_cmp, Hal.
    destruct (cmp_number _ _ _ Hal) as [_ Nl].
    assert (Zq : is_zero (a / la * lp * steps) = true).
    { apply zero_mul_finite_any; [| exact FS].
      apply zero_mul_finite_any; [| exact Fl].
      apply zero_div_number; [exact Za | exact Nl |].
      now apply pos_not_zero. }
    now rewrite Math_round_zero.
  - intros Hmode Zl Zp Fr Zr. rewrite Hmode, (zero_ltb_zero la Zl).
    cbn [andb]. rewrite (one_sub_zero lp Zp).
    assert (Zq : is_zero (steps * lp
                          + rootRange (a - la) zero (range - la)
                            / (range - la) * steps * one) = true).
    { apply add_zeros; [now apply finite_mul_zero_any |].
      apply zero_mul_finite_any; [| reflexivity].
      apply zero_mul_finite_any; [| exact FS].
      apply zero_div_number; [| now apply finite_number | exact Zr].
      apply rootRange_of_zero; [now apply sub_zeros | exact Fr | exact Zr]. }
    now rewrite Math_round_zero.
Qed.

Lemma modelToStep_lower_end_binary64_witness :
  is_zero (modelToStepInternal 100
             (ResolvedConfig.mk 10000 1000000 1 500 1000000 999500)) = true
  /\ is_zero (modelToStepInternal 100
                (ResolvedConfig.mk 10000 15000 0.75 500 1500000 1499500))
     = true
  /\ is_zero (modelToStepInternal 500
                (ResolvedConfig.mk 10000 0 0 500 1500000 1499500)) = true.
Proof.
  split; [| split].
  - apply (proj1 (modelToStep_lower_end_binary64 100
             (ResolvedConfig.mk 10000 1000000 1 500 1000000 999500)
             eq_refl eq_refl eq_refl eq_refl eq_refl)); reflexivity.
  - apply (proj1 (proj2 (modelToStep_lower_end_binary64 100
             (ResolvedConfig.mk 10000 15000 0.75 500 1500000 1499500)
             eq_refl eq_refl eq_refl eq_refl eq_refl))); reflexivity.
  - apply (proj2 (proj2 (modelToStep_lower_end_binary64 500
             (ResolvedConfig.mk 10000 0 0 500 1500000 1499500)
             eq_refl eq_refl eq_refl eq_refl eq_refl))); reflexivity.
Defined.

(** With [maxLinear] 0 and a percentage that is not, every step of the
    linear region is mapped to [min], and [min] back to the last of
    them. *)
Example lower_end_flat_region :
  stepToModel 2500 10000 (Bounds.mk 500 1500000)
              (Some (LinearConfig.mk 0 50)) = 500
  /\ modelToStep 500 10000 (Bounds.mk 500 1500000)
                 (Some (LinearConfig.mk 0 50)) = 5000.
Proof. vm_compute. split; reflexivity. Qed.
